(** * Gin middlewares: CORS policy, IP allow-list and access-log filter

    A shallow embedding of the three middlewares of the repository
    (packages [gcors], [ip_white] and [logger]) together with the
    properties their specification states about them.

    Go strings are byte strings and are modelled by [string]; Go [int]
    by [Z]; [map[string][]string] (the type behind [http.Header]) by
    [gmap string (list string)]; slices by [list].  A handler mutates the
    [*gin.Context] it is handed, which is modelled by a state monad over
    the context.  A run-time panic (index out of range, an explicit
    [panic]) is a result of its own. *)

From stdpp Require Import base gmap strings list fin_maps.
From Stdlib Require Import ZArith Lia Ascii DecimalString.

Open Scope string_scope.
Open Scope Z_scope.

(** Header maps, as in [net/http]: [type Header map[string][]string]. *)
Abbreviation HeaderMap := (gmap string (list string)).

(* ===================================================================== *)
(** * Package [strings] of the Go library, as far as it is called       *)
(* ===================================================================== *)

Module Strings.

(** [func HasPrefix(s, prefix string) bool {
       return len(s) >= len(prefix) && s[:len(prefix)] == prefix }] *)
Definition HasPrefix (s prefix : string) : bool :=
  (String.length prefix <=? String.length s)%nat
  && String.eqb (String.substring 0 (String.length prefix) s) prefix.

(** [func HasSuffix(s, suffix string) bool {
       return len(s) >= len(suffix) && s[len(s)-len(suffix):] == suffix }] *)
Definition HasSuffix (s suffix : string) : bool :=
  (String.length suffix <=? String.length s)%nat
  && String.eqb
       (String.substring (String.length s - String.length suffix)
                         (String.length suffix) s)
       suffix.

(** [Contains(s, substr)] is [Index(s, substr) >= 0]: [substr] starts at
    some position of [s]. *)
Fixpoint Contains (s substr : string) : bool :=
  HasPrefix s substr
  || match s with
     | EmptyString => false
     | String _ s' => Contains s' substr
     end.

(** What the two tests mean on strings. *)
Definition starts_with (s prefix : string) : Prop :=
  exists rest, s = prefix +:+ rest.

Definition ends_with (s suffix : string) : Prop :=
  exists front, s = front +:+ suffix.

End Strings.

(* ===================================================================== *)
(** * Results of running Go code                                         *)
(* ===================================================================== *)

(** A call returns a value and leaves a state, or panics and leaves the
    state as it was when the panic began (a panic undoes nothing), or
    (for the one loop that is run on fuel) has not finished when the
    fuel is spent. *)
Inductive Result (S A : Type) : Type :=
| Ok (a : A) (s : S)
| Panic (reason : string) (s : S)
| OutOfFuel.

Arguments Ok {S A} a s.
Arguments Panic {S A} reason s.
Arguments OutOfFuel {S A}.

(** A function that touches no state returns or panics. *)
Inductive Outcome (A : Type) : Type :=
| Returns (a : A)
| Panics (reason : string).

Arguments Returns {A} a.
Arguments Panics {A} reason.

(* ===================================================================== *)
(** * The part of [gin] and [net/http] the middlewares rely on           *)
(* ===================================================================== *)

(** The framework is a dependency of the repository, not part of it.  It
    is modelled as far as the middlewares use it: a request with method,
    host and header map, a mutable response header map, the status of
    the response, and the position in the handler chain.  The response is
    taken as not yet written when a middleware runs, as it is ahead of
    the handler. *)
Module Gin.

(** [Header.Get]: the first value stored under the key, [""] when there
    is none.  The keys used below are already in canonical form. *)
Definition Header_Get (h : HeaderMap) (key : string) : string :=
  match h !! key with
  | Some (v :: _) => v
  | _ => ""
  end.

Record Request : Type := mkRequest {
  Method : string;
  Host : string;
  Header : HeaderMap
}.

(** [index] is gin's [int8] position in the handler chain. *)
Record Context : Type := mkContext {
  Req : Request;
  WriterHeader : HeaderMap;
  WriterStatus : Z;
  index : Z
}.

(** What a handler did to the response, in order.  [EvAbortWithStatus]
    carries the status and the header map that went out when the
    response was cut short.
    [EvCall] records that a user-supplied function was called. *)
Inductive Event : Type :=
| EvAssignHeaders (entries : HeaderMap)
| EvHeader (key value : string)
| EvAbortWithStatus (code : Z) (sent : HeaderMap)
| EvCall (fn arg : string).

Record World : Type := mkWorld {
  ctx : Context;
  log : list Event
}.

Definition M (A : Type) : Type := World -> Result World A.

#[export] Instance M_ret : MRet M := fun A a w => Ok a w.

#[export] Instance M_bind : MBind M := fun A B f m w =>
  match m w with
  | Ok a w' => f a w'
  | Panic r w' => Panic r w'
  | OutOfFuel => OutOfFuel
  end.

Definition panic {A} (reason : string) : M A := fun w => Panic reason w.

Definition out_of_fuel {A} : M A := fun _ => OutOfFuel.

(** Indexing a slice: [s[i]] panics out of range. *)
Definition slice_at {A} (s : list A) (i : nat) : M A :=
  match s !! i with
  | Some v => mret v
  | None => panic "index out of range"
  end.

Definition get_ctx : M Context := fun w => Ok (ctx w) w.

Definition put_ctx (c : Context) : M unit :=
  fun w => Ok tt (mkWorld c (log w)).

Definition emit (e : Event) : M unit :=
  fun w => Ok tt (mkWorld (ctx w) (log w ++ [e])).

Definition set_header (h : HeaderMap) (c : Context) : Context :=
  mkContext (Req c) h (WriterStatus c) (index c).

Definition set_status (code : Z) (c : Context) : Context :=
  mkContext (Req c) (WriterHeader c) code (index c).

Definition set_index (i : Z) (c : Context) : Context :=
  mkContext (Req c) (WriterHeader c) (WriterStatus c) i.

(** [const abortIndex int8 = math.MaxInt8 >> 1] *)
Definition abortIndex : Z := 63.

Definition wrap8 (z : Z) : Z := (z + 128) mod 256 - 128.

Definition IsAborted (c : Context) : bool := abortIndex <=? index c.

(** [c.Header(key, value)]: an empty value deletes the key, any other
    value replaces what is stored under it. *)
Definition Context_Header (key value : string) : M unit :=
  c ← get_ctx;
  emit (EvHeader key value);;
  if String.eqb value ""
  then put_ctx (set_header (delete key (WriterHeader c)) c)
  else put_ctx (set_header (<[key := [value]]> (WriterHeader c)) c).

(** [c.Status(code)], that is [c.Writer.WriteHeader(code)]:
    [if code > 0 && w.status != code { w.status = code }].  A code that
    is not positive is ignored; storing the status it already has changes
    nothing. *)
Definition Status (code : Z) : M unit :=
  c ← get_ctx;
  if 0 <? code then put_ctx (set_status code c) else mret tt.

(** [c.Writer.WriteHeaderNow()] hands the status to [net/http], whose
    [WriteHeader] panics on a status below 100 or above 999
    ([checkWriteHeaderCode]); otherwise status and headers go out, which
    the log records. *)
Definition WriteHeaderNow : M unit :=
  c ← get_ctx;
  if (WriterStatus c <? 100) || (999 <? WriterStatus c)
  then panic "invalid WriteHeader code"
  else emit (EvAbortWithStatus (WriterStatus c) (WriterHeader c)).

(** [c.Abort()]: [c.index = abortIndex]. *)
Definition Abort : M unit :=
  c ← get_ctx;
  put_ctx (set_index abortIndex c).

(** [func (c *Context) AbortWithStatus(code int) {
       c.Status(code); c.Writer.WriteHeaderNow(); c.Abort() }] *)
Definition AbortWithStatus (code : Z) : M unit :=
  Status code;; WriteHeaderNow;; Abort.

(** [type HandlerFunc func(c *Context)] *)
Abbreviation HandlerFunc := (M unit).

(** The loop of [c.Next()]:
    [for c.index < int8(len(c.handlers)) {
       c.handlers[c.index](c); c.index++ }]. *)
Fixpoint handlersLoop (fuel : nat) (handlers : list HandlerFunc)
  : M unit :=
  match fuel with
  | O => out_of_fuel
  | S fuel' =>
      c ← get_ctx;
      if index c <? wrap8 (Z.of_nat (length handlers)) then
        if index c <? 0 then panic "index out of range"
        else
          match handlers !! Z.to_nat (index c) with
          | None => panic "index out of range"
          | Some h =>
              h;;
              c' ← get_ctx;
              put_ctx (set_index (wrap8 (index c' + 1)) c');;
              handlersLoop fuel' handlers
          end
      else mret tt
  end.

End Gin.

(* ===================================================================== *)
(** * Package [gcors]                                                    *)
(* ===================================================================== *)

Module Gcors.
Import Gin.

Record gCors : Type := mkCors {
  allowAllOrigins : bool;
  allowCredentials : bool;
  allowOriginFunc : option (string -> bool);
  allowOriginWithContextFunc : option (Context -> string -> bool);
  allowOrigins : list string;
  normalHeaders : HeaderMap;
  preflightHeaders : HeaderMap;
  wildcardOrigins : list (list string);
  optionsResponseStatusCode : Z
}.

(** [http.StatusNoContent], [http.StatusForbidden] *)
Definition StatusNoContent : Z := 204.
Definition StatusForbidden : Z := 403.

(** The body of the loop of [validateWildcardOrigin] for one rule [w]:
    three tests, each an [&&] that reads [w[0]] and [w[1]] from left to
    right and stops at the first false operand. *)
Definition wildcardRuleMatches (origin : string) (w : list string)
  : M bool :=
  w0 ← slice_at w 0%nat;
  t1 ← (if String.eqb w0 "*"
        then w1 ← slice_at w 1%nat; mret (Strings.HasSuffix origin w1)
        else mret false);
  if t1 : bool then mret true else
  w1 ← slice_at w 1%nat;
  t2 ← (if String.eqb w1 "*"
        then w0 ← slice_at w 0%nat; mret (Strings.HasPrefix origin w0)
        else mret false);
  if t2 : bool then mret true else
  w0 ← slice_at w 0%nat;
  if Strings.HasPrefix origin w0
  then w1 ← slice_at w 1%nat; mret (Strings.HasSuffix origin w1)
  else mret false.

Fixpoint wildcardLoop (origin : string) (rules : list (list string))
  : M bool :=
  match rules with
  | [] => mret false
  | w :: rules' =>
      hit ← wildcardRuleMatches origin w;
      if hit : bool then mret true else wildcardLoop origin rules'
  end.

Definition validateWildcardOrigin (g : gCors) (origin : string) : M bool :=
  wildcardLoop origin (wildcardOrigins g).

(** The two predicates are functions supplied by the user of the
    package.  They are taken to be observers: they return a verdict and
    leave the context alone.  Each call is recorded in the log. *)
Definition validateOrigin (g : gCors) (origin : string) : M bool :=
  if allowAllOrigins g then mret true else
  if existsb (fun value => String.eqb value origin) (allowOrigins g)
  then mret true else
  hit ← (if (0 <? Z.of_nat (length (wildcardOrigins g)))
         then validateWildcardOrigin g origin
         else mret false);
  if hit : bool then mret true else
  match allowOriginFunc g with
  | Some f => emit (EvCall "allowOriginFunc" origin);; mret (f origin)
  | None => mret false
  end.

Definition isOriginValid (g : gCors) (origin : string) : M bool :=
  valid ← validateOrigin g origin;
  match negb valid, allowOriginWithContextFunc g with
  | true, Some f =>
      c ← get_ctx;
      emit (EvCall "allowOriginWithContextFunc" origin);;
      mret (f c origin)
  | _, _ => mret valid
  end.

(** [for key, value := range headers { header[key] = value }] *)
Definition assignHeaders (headers : HeaderMap) : M unit :=
  c ← get_ctx;
  emit (EvAssignHeaders headers);;
  put_ctx (set_header
             (map_fold (fun key value header => <[key := value]> header)
                       (WriterHeader c) headers) c).

Definition handlePreflight (g : gCors) : M unit :=
  assignHeaders (preflightHeaders g).

Definition handleNormal (g : gCors) : M unit :=
  assignHeaders (normalHeaders g).

(** Calls registered with [defer] run when the function returns; the
    list holds them in the order they run. *)
Fixpoint runDeferred (deferred : list (M unit)) : M unit :=
  match deferred with
  | [] => mret tt
  | d :: rest => d;; runDeferred rest
  end.

Definition applyCors (g : gCors) : M unit :=
  c ← get_ctx;
  let origin := Header_Get (Header (Req c)) "Origin" in
  if (Z.of_nat (String.length origin) =? 0) then mret tt else
  let host := Host (Req c) in
  if String.eqb origin ("http://" +:+ host)
     || String.eqb origin ("https://" +:+ host)
  then mret tt else
  valid ← isOriginValid g origin;
  if negb valid then AbortWithStatus StatusForbidden else
  deferred ← (if String.eqb (Method (Req c)) "OPTIONS"
              then handlePreflight g;;
                   mret [AbortWithStatus (optionsResponseStatusCode g)]
              else handleNormal g;; mret []);
  (if negb (allowAllOrigins g)
   then Context_Header "Access-Control-Allow-Origin" origin
   else mret tt);;
  runDeferred deferred.

(** Modelled from the spec: the declaration of [Config] is not among
    the files at hand.  The fields are those [newCors] reads, and the
    rest of the configuration surface the specification lists (allowed
    methods, allowed headers, exposed headers, max-age). *)
Record Config : Type := mkConfig {
  AllowAllOrigins : bool;
  AllowOrigins : list string;
  AllowOriginFunc : option (string -> bool);
  AllowOriginWithContextFunc : option (Context -> string -> bool);
  AllowMethods : list string;
  AllowHeaders : list string;
  AllowCredentials : bool;
  ExposeHeaders : list string;
  MaxAge : Z;
  OptionsResponseStatusCode : Z
}.

Definition setAllowAllOrigins (b : bool) (c : Config) : Config :=
  mkConfig b (AllowOrigins c) (AllowOriginFunc c)
           (AllowOriginWithContextFunc c) (AllowMethods c) (AllowHeaders c)
           (AllowCredentials c) (ExposeHeaders c) (MaxAge c)
           (OptionsResponseStatusCode c).

Definition setOptionsResponseStatusCode (code : Z) (c : Config) : Config :=
  mkConfig (AllowAllOrigins c) (AllowOrigins c) (AllowOriginFunc c)
           (AllowOriginWithContextFunc c) (AllowMethods c) (AllowHeaders c)
           (AllowCredentials c) (ExposeHeaders c) (MaxAge c) code.

Section NewCors.

(** The helpers [newCors] calls are declared in files that are not at
    hand; the constructor is modelled over any such helpers.
    [Validate] returns an error or [nil]; [parseWildcardRules] may
    panic on a malformed entry. *)
Variable Validate : Config -> option string.
Variable normalize : list string -> list string.
Variable generateNormalHeaders : Config -> HeaderMap.
Variable generatePreflightHeaders : Config -> HeaderMap.
Variable parseWildcardRules : Config -> Outcome (list (list string)).

(** [for _, origin := range config.AllowOrigins {
       if origin == "*" { config.AllowAllOrigins = true } }] *)
Definition promoteStar (config : Config) : Config :=
  fold_left
    (fun cfg origin =>
       if String.eqb origin "*" then setAllowAllOrigins true cfg else cfg)
    (AllowOrigins config) config.

Definition defaultStatus (config : Config) : Config :=
  if OptionsResponseStatusCode config =? 0
  then setOptionsResponseStatusCode StatusNoContent config
  else config.

Definition newCors (config : Config) : Outcome gCors :=
  match Validate config with
  | Some err => Panics err
  | None =>
      let config := defaultStatus (promoteStar config) in
      match parseWildcardRules config with
      | Panics reason => Panics reason
      | Returns rules =>
          Returns
            {| allowOriginFunc := AllowOriginFunc config;
               allowOriginWithContextFunc :=
                 AllowOriginWithContextFunc config;
               allowAllOrigins := AllowAllOrigins config;
               allowCredentials := AllowCredentials config;
               allowOrigins := normalize (AllowOrigins config);
               normalHeaders := generateNormalHeaders config;
               preflightHeaders := generatePreflightHeaders config;
               wildcardOrigins := rules;
               optionsResponseStatusCode :=
                 OptionsResponseStatusCode config |}
      end
  end.

End NewCors.

End Gcors.

(* ===================================================================== *)
(** * Package [ip_white]                                                 *)
(* ===================================================================== *)

Module IpWhite.
Import Gin.

(** [type option struct { WhiteList []string; sync.Mutex }]; the mutex
    is never locked. *)
Record option_ : Type := mkOption { WhiteList : list string }.

Definition Option : Type := option_ -> option_.

Definition WithIpWhite (ips : list string) : Option :=
  fun _ => mkOption ips.

Section Net.

(** Package [net] of the Go library and two calls into the framework
    are taken as they come: [ParseIP] yields an address or [nil],
    [ParseCIDR] a network or an error. *)
Variable IP : Type.
Variable IPNet : Type.
Variable ParseIP : string -> option IP.
Variable ParseCIDR : string -> option IPNet.
Variable IPNet_Contains : IPNet -> IP -> bool.
Variable TrimSpace : string -> string.
Variable ClientIP : Context -> string.

Fixpoint whitelistLoop (ip : string) (ipAddr : IP)
         (whitelist : list string) : bool :=
  match whitelist with
  | [] => false
  | allowedIP :: rest =>
      if Strings.Contains allowedIP "/" then
        match ParseCIDR allowedIP with
        | None => whitelistLoop ip ipAddr rest
        | Some ipNet =>
            if IPNet_Contains ipNet ipAddr then true
            else whitelistLoop ip ipAddr rest
        end
      else
        let allowedIP := TrimSpace allowedIP in
        if String.eqb allowedIP ip then true
        else whitelistLoop ip ipAddr rest
  end.

Definition isIPWhite (ip : string) (whitelist : list string) : bool :=
  match ParseIP ip with
  | None => false
  | Some ipAddr => whitelistLoop ip ipAddr whitelist
  end.

Definition New (opts : list Option) : HandlerFunc :=
  let cfg := fold_left (fun cfg opt => opt cfg) opts (mkOption []) in
  c ← get_ctx;
  if negb (isIPWhite (ClientIP c) (WhiteList cfg))
  then AbortWithStatus Gcors.StatusForbidden
  else mret tt.

End Net.

End IpWhite.

(* ===================================================================== *)
(** * Package [logger]: the exclusion filter                             *)
(* ===================================================================== *)

Module Logger.

Section Regexp.

(** [regexp.MatchString(pattern, s)] returns whether [s] matches and
    an error when [pattern] does not compile. *)
Variable MatchString : string -> string -> bool * option string.

Fixpoint checkLabelLoop (label : string) (patterns : list string)
  : bool :=
  match patterns with
  | [] => true
  | pattern :: rest =>
      if String.eqb pattern "" then true
      else
        let '(matched, err) := MatchString pattern label in
        match err with
        | Some _ => true
        | None => if matched then false else checkLabelLoop label rest
        end
  end.

Definition checkLabel (label : string) (patterns : list string) : bool :=
  if (Z.of_nat (length patterns) <=? 0) then true
  else checkLabelLoop label patterns.

End Regexp.

(** [math.MaxInt] where [int] has 64 bits; [time.Second] and
    [time.Minute], a [time.Duration] being a count of nanoseconds. *)
Definition MaxInt : Z := 9223372036854775807.
Definition Second : Z := 1000000000.
Definition Minute : Z := 60 * Second.

(** [%d] of [fmt.Sprintf] on an [int]. *)
Definition itoa (n : Z) : string := NilEmpty.string_of_int (Z.to_int n).

(** The line feed of a Go string literal. *)
Definition LF : string := String (Ascii.ascii_of_nat 10) EmptyString.

(** [s[0:n]] on a byte slice, for [n] that does not exceed the
    capacity: a negative [n] panics. *)
Definition slice_to (s : string) (n : Z) : Outcome string :=
  if (n <? 0) || (Z.of_nat (String.length s) <? n)
  then Panics "slice bounds out of range"
  else Returns (String.substring 0 (Z.to_nat n) s).

Section Config.

(** Types of the framework and of the logging library, taken as they
    come: [time.Time], [map[string]interface{}], [glog.ILogger],
    [glog.ILoggerEntry], and the bodies of [WriterLogFn] and
    [WriterErrorFn]. *)
Variable Time : Type.
Variable KeyMap : Type.
Variable ILogger : Type.
Variable ILoggerEntry : Type.
Variable WriterLogFn : Type.
Variable WriterErrorFn : Type.

Record LogFormatterParams : Type := mkParams {
  TimeStamp : Time;
  StatusCode : Z;
  Latency : Z;
  ClientIP : string;
  Method : string;
  Path : string;
  ErrorMessage : string;
  isTerm : bool;
  BodySize : Z;
  Keys : KeyMap;
  RequestData : string;
  RequestUserAgent : string;
  RequestReferer : string;
  RequestProto : string;
  RequestId : string;
  TraceId : string;
  SpanId : string;
  ResponseData : string
}.

Definition setLatency (d : Z) (p : LogFormatterParams)
  : LogFormatterParams :=
  mkParams (TimeStamp p) (StatusCode p) d (ClientIP p) (Method p) (Path p)
           (ErrorMessage p) (isTerm p) (BodySize p) (Keys p)
           (RequestData p) (RequestUserAgent p) (RequestReferer p)
           (RequestProto p) (RequestId p) (TraceId p) (SpanId p)
           (ResponseData p).

Definition setRequestData (d : string) (p : LogFormatterParams)
  : LogFormatterParams :=
  mkParams (TimeStamp p) (StatusCode p) (Latency p) (ClientIP p) (Method p)
           (Path p) (ErrorMessage p) (isTerm p) (BodySize p) (Keys p)
           d (RequestUserAgent p) (RequestReferer p)
           (RequestProto p) (RequestId p) (TraceId p) (SpanId p)
           (ResponseData p).

Definition setResponseData (d : string) (p : LogFormatterParams)
  : LogFormatterParams :=
  mkParams (TimeStamp p) (StatusCode p) (Latency p) (ClientIP p) (Method p)
           (Path p) (ErrorMessage p) (isTerm p) (BodySize p) (Keys p)
           (RequestData p) (RequestUserAgent p) (RequestReferer p)
           (RequestProto p) (RequestId p) (TraceId p) (SpanId p) d.

(** The first statement of [defaultLogFormatter]:
    [if param.Latency > time.Minute {
       param.Latency = param.Latency - param.Latency%time.Second }].
    Go's [%] truncates towards zero.  The [fmt.Sprintf] that follows
    formats a duration and quotes a string and is not modelled. *)
Definition roundLatency (param : LogFormatterParams) : LogFormatterParams :=
  if Minute <? Latency param
  then setLatency (Latency param - Z.rem (Latency param) Second) param
  else param.

(** [type LogFormatter func(params LogFormatterParams) string],
    [type RequestLabelMappingFn func(c *gin.Context) string]; a field of
    function type may hold [nil]. *)
Record config : Type := mkConfig {
  formatter : option (LogFormatterParams -> string);
  logger : option ILoggerEntry;
  excludeRegexStatus : list string;
  excludeRegexEndpoint : list string;
  excludeRegexMethod : list string;
  endpointLabelMappingFn : option (Gin.Context -> string);
  writerLogFn : option WriterLogFn;
  writerErrorFn : option WriterErrorFn;
  bodyLength : Z;
  rawDataLength : Z
}.

(** An option mutates the configuration it is handed; applying it may
    panic. *)
Definition Option : Type := config -> Outcome config.

(** [logger.WithField("Gin-Logger", "Gin-Logger")]. *)
Variable WithField : ILogger -> ILoggerEntry.

(** Calling a method of a [nil] interface value panics. *)
Definition WithLogger (l : option ILogger) : Option :=
  fun cfg =>
    match l with
    | None => Panics "invalid memory address or nil pointer dereference"
    | Some l =>
        Returns
          (mkConfig (formatter cfg) (Some (WithField l))
                    (excludeRegexStatus cfg) (excludeRegexEndpoint cfg)
                    (excludeRegexMethod cfg) (endpointLabelMappingFn cfg)
                    (writerLogFn cfg) (writerErrorFn cfg) (bodyLength cfg)
                    (rawDataLength cfg))
    end.

Definition WithExcludeRegexMethod (patterns : list string) : Option :=
  fun cfg =>
    Returns
      (mkConfig (formatter cfg) (logger cfg)
                (excludeRegexStatus cfg) (excludeRegexEndpoint cfg)
                patterns (endpointLabelMappingFn cfg)
                (writerLogFn cfg) (writerErrorFn cfg) (bodyLength cfg)
                (rawDataLength cfg)).

Definition WithExcludeRegexStatus (patterns : list string) : Option :=
  fun cfg =>
    Returns
      (mkConfig (formatter cfg) (logger cfg)
                patterns (excludeRegexEndpoint cfg)
                (excludeRegexMethod cfg) (endpointLabelMappingFn cfg)
                (writerLogFn cfg) (writerErrorFn cfg) (bodyLength cfg)
                (rawDataLength cfg)).

Definition WithExcludeRegexEndpoint (patterns : list string) : Option :=
  fun cfg =>
    Returns
      (mkConfig (formatter cfg) (logger cfg)
                (excludeRegexStatus cfg) patterns
                (excludeRegexMethod cfg) (endpointLabelMappingFn cfg)
                (writerLogFn cfg) (writerErrorFn cfg) (bodyLength cfg)
                (rawDataLength cfg)).

Definition WithEndpointLabelMappingFn
           (fn : option (Gin.Context -> string)) : Option :=
  fun cfg =>
    Returns
      (mkConfig (formatter cfg) (logger cfg)
                (excludeRegexStatus cfg) (excludeRegexEndpoint cfg)
                (excludeRegexMethod cfg) fn
                (writerLogFn cfg) (writerErrorFn cfg) (bodyLength cfg)
                (rawDataLength cfg)).

Definition WithFormatter (f : option (LogFormatterParams -> string))
  : Option :=
  fun cfg =>
    Returns
      (mkConfig f (logger cfg)
                (excludeRegexStatus cfg) (excludeRegexEndpoint cfg)
                (excludeRegexMethod cfg) (endpointLabelMappingFn cfg)
                (writerLogFn cfg) (writerErrorFn cfg) (bodyLength cfg)
                (rawDataLength cfg)).

Definition WithWriterLogFn (fn : option WriterLogFn) : Option :=
  fun cfg =>
    Returns
      (mkConfig (formatter cfg) (logger cfg)
                (excludeRegexStatus cfg) (excludeRegexEndpoint cfg)
                (excludeRegexMethod cfg) (endpointLabelMappingFn cfg)
                fn (writerErrorFn cfg) (bodyLength cfg)
                (rawDataLength cfg)).

Definition WithWriterErrorFn (fn : option WriterErrorFn) : Option :=
  fun cfg =>
    Returns
      (mkConfig (formatter cfg) (logger cfg)
                (excludeRegexStatus cfg) (excludeRegexEndpoint cfg)
                (excludeRegexMethod cfg) (endpointLabelMappingFn cfg)
                (writerLogFn cfg) fn (bodyLength cfg)
                (rawDataLength cfg)).

Definition WithBodyLength (n : Z) : Option :=
  fun cfg =>
    Returns
      (mkConfig (formatter cfg) (logger cfg)
                (excludeRegexStatus cfg) (excludeRegexEndpoint cfg)
                (excludeRegexMethod cfg) (endpointLabelMappingFn cfg)
                (writerLogFn cfg) (writerErrorFn cfg) n
                (rawDataLength cfg)).

Definition WithRawDataLength (n : Z) : Option :=
  fun cfg =>
    Returns
      (mkConfig (formatter cfg) (logger cfg)
                (excludeRegexStatus cfg) (excludeRegexEndpoint cfg)
                (excludeRegexMethod cfg) (endpointLabelMappingFn cfg)
                (writerLogFn cfg) (writerErrorFn cfg) (bodyLength cfg) n).

(** [for _, opt := range opts { opt(cfg) }] *)
Fixpoint applyOptions (opts : list Option) (cfg : config)
  : Outcome config :=
  match opts with
  | [] => Returns cfg
  | opt :: rest =>
      match opt cfg with
      | Returns cfg' => applyOptions rest cfg'
      | Panics reason => Panics reason
      end
  end.

(** [if cfg.formatter == nil { cfg.formatter = defaultLogFormatter }] *)
Definition ensureFormatter
           (defaultLogFormatter : LogFormatterParams -> string)
           (cfg : config) : config :=
  match formatter cfg with
  | None =>
      mkConfig (Some defaultLogFormatter) (logger cfg)
               (excludeRegexStatus cfg) (excludeRegexEndpoint cfg)
               (excludeRegexMethod cfg) (endpointLabelMappingFn cfg)
               (writerLogFn cfg) (writerErrorFn cfg) (bodyLength cfg)
               (rawDataLength cfg)
  | Some _ => cfg
  end.

(** The default label function, [c.Request.URL.Path], and the default
    formatter, as values. *)
Variable urlPath : Gin.Context -> string.
Variable defaultLogFormatter : LogFormatterParams -> string.

(** The package keeps one configuration, [var cfg *config], which both
    constructors create when it is [nil] and then mutate.  The handler
    each returns reads that variable when a request comes.  [New] and
    [NewErrorLogger] are modelled by what they do to the variable: they
    take its value and return the value they leave in it. *)
Definition New (cfg : option config) (opts : list Option)
  : Outcome config :=
  let cfg :=
    match cfg with
    | None =>
        mkConfig None None [] [] [] (Some urlPath) None None MaxInt MaxInt
    | Some cfg => cfg
    end in
  match applyOptions opts cfg with
  | Returns cfg => Returns (ensureFormatter defaultLogFormatter cfg)
  | Panics reason => Panics reason
  end.

Definition NewErrorLogger (cfg : option config) (opts : list Option)
  : Outcome config :=
  let cfg :=
    match cfg with
    | None => mkConfig None None [] [] [] (Some urlPath) None None 0 0
    | Some cfg => cfg
    end in
  match applyOptions opts cfg with
  | Returns cfg => Returns (ensureFormatter defaultLogFormatter cfg)
  | Panics reason => Panics reason
  end.

(** The two statements by which both handlers put the request body
    [rawData] and the response body [body] into the record:
    [if len(rawData) <= cfg.bodyLength { param.RequestData = ... }
     else { param.ResponseData = fmt.Sprintf(...) }
     if writer.body.Len() <= cfg.rawDataLength { param.ResponseData = ... }
     else { param.ResponseData = fmt.Sprintf(...) }]. *)
Definition recordBodies (cfg : config) (rawData body : string)
           (param : LogFormatterParams) : Outcome LogFormatterParams :=
  match
    (if Z.of_nat (String.length rawData) <=? bodyLength cfg
     then Returns (setRequestData rawData param)
     else
       match slice_to rawData (bodyLength cfg) with
       | Returns head =>
           Returns
             (setResponseData
                ("request data is too large, limit size: "
                 +:+ itoa (bodyLength cfg) +:+ " " +:+ LF +:+ head)
                param)
       | Panics reason => Panics reason
       end)
  with
  | Panics reason => Panics reason
  | Returns param =>
      if Z.of_nat (String.length body) <=? rawDataLength cfg
      then Returns (setResponseData body param)
      else
        match slice_to body (rawDataLength cfg) with
        | Returns head =>
            Returns
              (setResponseData
                 ("response data is too large, limit size: "
                  +:+ itoa (rawDataLength cfg) +:+ " " +:+ LF +:+ head)
                 param)
        | Panics reason => Panics reason
        end
  end.

End Config.

End Logger.

(* ===================================================================== *)
(** * The notions the specification is worded in                         *)
(* ===================================================================== *)

Module CorsSpec.
Import Gin Gcors.

Definition ACAO : string := "Access-Control-Allow-Origin".

(** Request classification (section 4.2 of the specification). *)
Inductive RequestClass : Type := NotCors | SameOrigin | CrossOrigin.

Definition requestOrigin (c : Context) : string :=
  Header_Get (Header (Req c)) "Origin".

Definition classify (c : Context) : RequestClass :=
  let origin := requestOrigin c in
  if String.eqb origin "" then NotCors
  else if String.eqb origin ("http://" +:+ Host (Req c)) then SameOrigin
  else if String.eqb origin ("https://" +:+ Host (Req c)) then SameOrigin
  else CrossOrigin.

(** When a pattern [(prefix, suffix)] matches an origin (section 4.3,
    step 3). *)
Definition rule_matches (prefix suffix origin : string) : Prop :=
  (prefix = "*" /\ Strings.ends_with origin suffix)
  \/ (suffix = "*" /\ Strings.starts_with origin prefix)
  \/ (Strings.starts_with origin prefix
      /\ Strings.ends_with origin suffix).

Definition some_rule_matches (rules : list (list string))
           (origin : string) : Prop :=
  exists prefix suffix,
    [prefix; suffix] ∈ rules /\ rule_matches prefix suffix origin.

(** Every stored pattern has its two parts. *)
Definition two_part (rules : list (list string)) : Prop :=
  forallb (fun w => Nat.eqb (length w) 2) rules = true.

(** The same test as a boolean, for the proofs. *)
Definition rule_matchesb (prefix suffix origin : string) : bool :=
  String.eqb prefix "*" && Strings.HasSuffix origin suffix
  || String.eqb suffix "*" && Strings.HasPrefix origin prefix
  || Strings.HasPrefix origin prefix && Strings.HasSuffix origin suffix.

Definition some_rule_matchesb (rules : list (list string))
           (origin : string) : bool :=
  existsb (fun w => match w with
                    | [prefix; suffix] => rule_matchesb prefix suffix origin
                    | _ => false
                    end) rules.

(** "First match wins": run the checks in order, accept at the first
    that succeeds and run none after it; reject when all fail. *)
Fixpoint first_success (checks : list (M bool)) : M bool :=
  match checks with
  | [] => mret false
  | check :: rest =>
      ok ← check;
      if ok : bool then mret true else first_success rest
  end.

(** The five checks of origin validation, in the order of the
    specification.  A predicate that is not configured fails. *)
Definition check_allow_all (g : gCors) : M bool :=
  mret (allowAllOrigins g).

Definition check_exact (g : gCors) (origin : string) : M bool :=
  mret (bool_decide (origin ∈ allowOrigins g)).

(** The third check knows whether some wildcard pattern matches the
    origin; [matched] is that answer. *)
Definition check_wildcard (matched : bool) : M bool :=
  mret matched.

Definition check_predicate (g : gCors) (origin : string) : M bool :=
  match allowOriginFunc g with
  | Some f => emit (EvCall "allowOriginFunc" origin);; mret (f origin)
  | None => mret false
  end.

Definition check_context_predicate (g : gCors) (origin : string)
  : M bool :=
  match allowOriginWithContextFunc g with
  | Some f =>
      c ← get_ctx;
      emit (EvCall "allowOriginWithContextFunc" origin);;
      mret (f c origin)
  | None => mret false
  end.

Definition origin_checks (g : gCors) (origin : string) (matched : bool)
  : list (M bool) :=
  [ check_allow_all g; check_exact g origin; check_wildcard matched;
    check_predicate g origin; check_context_predicate g origin ].

(** The calls made to the configured predicates when every check
    fails. *)
Definition predicate_calls (g : gCors) (origin : string) : list Event :=
  match allowOriginFunc g with
  | Some _ => [EvCall "allowOriginFunc" origin]
  | None => []
  end
  ++ match allowOriginWithContextFunc g with
     | Some _ => [EvCall "allowOriginWithContextFunc" origin]
     | None => []
     end.

(** Events that write a response header. *)
Definition writes_header (e : Event) : bool :=
  match e with
  | EvAssignHeaders _ | EvHeader _ _ => true
  | _ => false
  end.

(** Calls [c.Header("Access-Control-Allow-Origin", _)]. *)
Definition sets_allow_origin (e : Event) : bool :=
  match e with
  | EvHeader key _ => String.eqb key ACAO
  | _ => false
  end.

(** The precomputed header set of the branch a request takes. *)
Definition branchHeaders (g : gCors) (c : Context) : HeaderMap :=
  if String.eqb (Method (Req c)) "OPTIONS"
  then preflightHeaders g else normalHeaders g.

(** The context left by [c.AbortWithStatus(code)]. *)
Definition aborted (code : Z) (c : Context) : Context :=
  set_index abortIndex (set_status code c).

(** What [applyCors] leaves behind for an accepted cross-origin
    request when the deferred abort of a preflight goes through: the
    response headers, the events, the context. *)
Definition acceptedHeaders (g : gCors) (c : Context) : HeaderMap :=
  let assigned := branchHeaders g c ∪ WriterHeader c in
  if allowAllOrigins g then assigned
  else <[ACAO := [requestOrigin c]]> assigned.

Definition acceptedEvents (g : gCors) (c : Context) : list Event :=
  [EvAssignHeaders (branchHeaders g c)]
  ++ (if allowAllOrigins g then []
      else [EvHeader ACAO (requestOrigin c)])
  ++ (if String.eqb (Method (Req c)) "OPTIONS"
      then [EvAbortWithStatus (optionsResponseStatusCode g)
                              (acceptedHeaders g c)]
      else []).

Definition acceptedContext (g : gCors) (c : Context) : Context :=
  let c' := set_header (acceptedHeaders g c) c in
  if String.eqb (Method (Req c)) "OPTIONS"
  then aborted (optionsResponseStatusCode g) c'
  else c'.

(** A status [net/http] accepts. *)
Definition valid_status (code : Z) : Prop := 100 <= code <= 999.

(** The echo of the origin, as an event. *)
Definition echoEvents (g : gCors) (c : Context) : list Event :=
  if allowAllOrigins g then [] else [EvHeader ACAO (requestOrigin c)].

(** The world in which an accepted cross-origin request reaches the end
    of [applyCors], where the deferred call, if any, is run: the headers
    are written, the chain goes on. *)
Definition preparedWorld (g : gCors) (c : Context) (before : list Event)
  : World :=
  mkWorld (set_header (acceptedHeaders g c) c)
          (before ++ [EvAssignHeaders (branchHeaders g c)]
           ++ echoEvents g c).

(** The handler after which [c.Next()] resumes its loop. *)
Definition advance (w : World) : World :=
  mkWorld (set_index (wrap8 (index (ctx w) + 1)) (ctx w)) (log w).

End CorsSpec.

Module LoggerSpec.

(** A pattern that is not empty, compiles, and matches the label or
    not, as [matched] says. *)
Definition sound_pattern
           (MatchString : string -> string -> bool * option string)
           (label : string) (matched : bool) (pattern : string) : Prop :=
  pattern <> "" /\ MatchString pattern label = (matched, None).

End LoggerSpec.

(* ===================================================================== *)
(** * Sample data                                                        *)
(* ===================================================================== *)

(** Concrete policies, requests and library functions on which the
    middlewares are run in the examples below. *)
Module Samples.
Import Gin Gcors.

Definition policy : gCors :=
  {| allowAllOrigins := false;
     allowCredentials := false;
     allowOriginFunc :=
       Some (fun origin => String.eqb origin "https://special.test");
     allowOriginWithContextFunc :=
       Some (fun c origin =>
               String.eqb (Method (Req c)) "GET"
               && String.eqb origin "https://partner.test");
     allowOrigins := ["https://example.com"];
     normalHeaders := {[ "Access-Control-Expose-Headers" := ["X-Trace"] ]};
     preflightHeaders :=
       <["Access-Control-Allow-Methods" := ["GET,POST"] ]>
         {[ "Access-Control-Allow-Headers" := ["Content-Type"] ]};
     wildcardOrigins := [["https://"; ".example.com"]];
     optionsResponseStatusCode := 204 |}.

Definition openPolicy : gCors :=
  {| allowAllOrigins := true;
     allowCredentials := false;
     allowOriginFunc := None;
     allowOriginWithContextFunc := None;
     allowOrigins := [];
     normalHeaders := {[ "Access-Control-Allow-Origin" := ["*"] ]};
     preflightHeaders := {[ "Access-Control-Allow-Origin" := ["*"] ]};
     wildcardOrigins := [];
     optionsResponseStatusCode := 204 |}.

(** The sample policy with another preflight status. *)
Definition policyWithStatus (code : Z) : gCors :=
  {| allowAllOrigins := allowAllOrigins policy;
     allowCredentials := allowCredentials policy;
     allowOriginFunc := allowOriginFunc policy;
     allowOriginWithContextFunc := allowOriginWithContextFunc policy;
     allowOrigins := allowOrigins policy;
     normalHeaders := normalHeaders policy;
     preflightHeaders := preflightHeaders policy;
     wildcardOrigins := wildcardOrigins policy;
     optionsResponseStatusCode := code |}.

(** A policy whose only rule lost its second part. *)
Definition brokenPolicy : gCors :=
  {| allowAllOrigins := false;
     allowCredentials := false;
     allowOriginFunc := None;
     allowOriginWithContextFunc := None;
     allowOrigins := ["https://example.com"];
     normalHeaders := ∅;
     preflightHeaders := ∅;
     wildcardOrigins := [["https://"]];
     optionsResponseStatusCode := 204 |}.

Definition request (method origin : string) : World :=
  mkWorld
    (mkContext (mkRequest method "api.test" {[ "Origin" := [origin] ]})
               {[ "Content-Type" := ["text/plain"] ]} 200 0)
    [].

Definition plainRequest (method : string) : World :=
  mkWorld
    (mkContext (mkRequest method "api.test" ∅)
               {[ "Content-Type" := ["text/plain"] ]} 200 0)
    [].

Definition starConfig : Config :=
  {| AllowAllOrigins := false;
     AllowOrigins := ["https://example.com"; "*"];
     AllowOriginFunc := None;
     AllowOriginWithContextFunc := None;
     AllowMethods := ["GET"];
     AllowHeaders := [];
     AllowCredentials := false;
     ExposeHeaders := [];
     MaxAge := 0;
     OptionsResponseStatusCode := 0 |}.

(** Helpers for [newCors] that accept every configuration and compute
    nothing. *)
Definition anyValidate (c : Config) : option string := None.
Definition sameOrigins (origins : list string) : list string := origins.
Definition noHeaders (c : Config) : HeaderMap := ∅.
Definition noRules (c : Config) : Outcome (list (list string)) :=
  Returns [].

(** Dotted-quad addresses as 32-bit numbers, and networks as a base
    address with a prefix length: a stand-in for package [net] on IPv4
    input. *)
Definition digit (a : Ascii.ascii) : option N :=
  let n := Ascii.N_of_ascii a in
  if ((48 <=? n) && (n <=? 57))%N then Some (n - 48)%N else None.

Fixpoint decimal (s : string) (acc : N) : option N :=
  match s with
  | EmptyString => Some acc
  | String a s' =>
      match digit a with
      | Some d => decimal s' (10 * acc + d)%N
      | None => None
      end
  end.

Definition number (s : string) : option N :=
  if String.eqb s "" then None else decimal s 0%N.

Fixpoint split (sep : Ascii.ascii) (s : string) : list string :=
  match s with
  | EmptyString => [""]
  | String a s' =>
      if Ascii.eqb a sep then "" :: split sep s'
      else match split sep s' with
           | x :: xs => String a x :: xs
           | [] => [String a ""]
           end
  end.

Definition octets (parts : list string) : option N :=
  match parts with
  | [a; b; c; d] =>
      match number a, number b, number c, number d with
      | Some a, Some b, Some c, Some d =>
          if ((a <=? 255) && (b <=? 255) && (c <=? 255) && (d <=? 255))%N
          then Some (((a * 256 + b) * 256 + c) * 256 + d)%N
          else None
      | _, _, _, _ => None
      end
  | _ => None
  end.

Definition parseIPv4 (s : string) : option N := octets (split "."%char s).

Definition parseCIDRv4 (s : string) : option (N * N) :=
  match split "/"%char s with
  | [addr; bits] =>
      match parseIPv4 addr, number bits with
      | Some a, Some n => if (n <=? 32)%N then Some (a, n) else None
      | _, _ => None
      end
  | _ => None
  end.

Definition containsIPv4 (net : N * N) (ip : N) : bool :=
  let '(base, bits) := net in
  (N.shiftr ip (32 - bits) =? N.shiftr base (32 - bits))%N.

Fixpoint trimLeft (s : string) : string :=
  match s with
  | String a s' => if Ascii.eqb a " "%char then trimLeft s' else s
  | EmptyString => s
  end.

Fixpoint trimRight (s : string) : string :=
  match s with
  | EmptyString => EmptyString
  | String a s' =>
      let t := trimRight s' in
      if Ascii.eqb a " "%char && String.eqb t "" then EmptyString
      else String a t
  end.

Definition trimSpaces (s : string) : string := trimRight (trimLeft s).

Definition realIP (c : Context) : string :=
  Header_Get (Header (Req c)) "X-Real-Ip".

Definition visitor (ip : string) : World :=
  mkWorld (mkContext (mkRequest "GET" "api.test" {[ "X-Real-Ip" := [ip] ]})
                     ∅ 200 0) [].

(** A stand-in for [regexp.MatchString] on literal patterns: a pattern
    with an opening parenthesis does not compile, any other pattern
    matches the strings it occurs in. *)
Definition literalMatch (pattern s : string) : bool * option string :=
  if Strings.Contains pattern "("
  then (false, Some "error parsing regexp: missing closing )")
  else (Strings.Contains s pattern, None).

End Samples.

(* ===================================================================== *)
(** * Notions for the properties beyond the specification                *)
(* ===================================================================== *)

Module IpWhiteSpec.

Section Net.

Variable IP : Type.
Variable IPNet : Type.
Variable ParseIP : string -> option IP.
Variable ParseCIDR : string -> option IPNet.
Variable IPNet_Contains : IPNet -> IP -> bool.
Variable TrimSpace : string -> string.

(** What it takes for one entry of the white list to admit a client:
    the client's text parses as an address, and either the entry has a
    slash, parses as a network and the network contains the address, or
    the entry has no slash and, trimmed, is the client's text. *)
Definition admits (ip entry : string) : Prop :=
  exists ipAddr,
    ParseIP ip = Some ipAddr
    /\ ((Strings.Contains entry "/" = true
         /\ exists ipNet, ParseCIDR entry = Some ipNet
                          /\ IPNet_Contains ipNet ipAddr = true)
        \/ (Strings.Contains entry "/" = false /\ TrimSpace entry = ip)).

End Net.

End IpWhiteSpec.

Module LoggerSettings.

Section Settings.

Variable Time : Type.
Variable KeyMap : Type.
Variable ILogger : Type.
Variable ILoggerEntry : Type.
Variable WriterLogFn : Type.
Variable WriterErrorFn : Type.
Variable WithField : ILogger -> ILoggerEntry.

(** The options the package offers, as data: one constructor for each
    [With...] function, with its argument. *)
Inductive Setting : Type :=
| SetLogger (l : option ILogger)
| SetExcludeRegexMethod (patterns : list string)
| SetExcludeRegexStatus (patterns : list string)
| SetExcludeRegexEndpoint (patterns : list string)
| SetEndpointLabelMappingFn (fn : option (Gin.Context -> string))
| SetFormatter
    (f : option (Logger.LogFormatterParams Time KeyMap -> string))
| SetWriterLogFn (fn : option WriterLogFn)
| SetWriterErrorFn (fn : option WriterErrorFn)
| SetBodyLength (n : Z)
| SetRawDataLength (n : Z).

Definition toOption (s : Setting)
  : Logger.Option Time KeyMap ILoggerEntry WriterLogFn WriterErrorFn :=
  match s with
  | SetLogger l => Logger.WithLogger _ _ _ _ _ _ WithField l
  | SetExcludeRegexMethod ps => Logger.WithExcludeRegexMethod _ _ _ _ _ ps
  | SetExcludeRegexStatus ps => Logger.WithExcludeRegexStatus _ _ _ _ _ ps
  | SetExcludeRegexEndpoint ps =>
      Logger.WithExcludeRegexEndpoint _ _ _ _ _ ps
  | SetEndpointLabelMappingFn fn =>
      Logger.WithEndpointLabelMappingFn _ _ _ _ _ fn
  | SetFormatter f => Logger.WithFormatter _ _ _ _ _ f
  | SetWriterLogFn fn => Logger.WithWriterLogFn _ _ _ _ _ fn
  | SetWriterErrorFn fn => Logger.WithWriterErrorFn _ _ _ _ _ fn
  | SetBodyLength n => Logger.WithBodyLength _ _ _ _ _ n
  | SetRawDataLength n => Logger.WithRawDataLength _ _ _ _ _ n
  end.

Definition sets_length (s : Setting) : bool :=
  match s with
  | SetBodyLength _ | SetRawDataLength _ => true
  | _ => false
  end.

Definition nil_logger (s : Setting) : bool :=
  match s with
  | SetLogger None => true
  | _ => false
  end.

(** The text the second statement of [recordBodies] stores for a
    response body under a (non-negative) limit. *)
Definition responseText (limit : Z) (body : string) : string :=
  if Z.of_nat (String.length body) <=? limit then body
  else "response data is too large, limit size: "
       +:+ Logger.itoa limit +:+ " " +:+ Logger.LF
       +:+ String.substring 0 (Z.to_nat limit) body.

End Settings.

End LoggerSettings.

(** Sample loggers: a logger is its name, the record keys are absent,
    the formatter prints the path. *)
Module LoggerSamples.

Definition SParams : Type := Logger.LogFormatterParams Z unit.
Definition SConfig : Type := Logger.config Z unit string unit unit.
Definition SSetting : Type := LoggerSettings.Setting Z unit string unit unit.

Definition withField (l : string) : string := l +:+ " Gin-Logger".
Definition samplePath (c : Gin.Context) : string := Gin.Host (Gin.Req c).
Definition pathFormatter (p : SParams) : string := Logger.Path _ _ p.

Definition sNew (cfg : option SConfig) (settings : list SSetting)
  : Outcome SConfig :=
  Logger.New _ _ _ _ _ samplePath pathFormatter cfg
             (map (LoggerSettings.toOption _ _ _ _ _ _ withField) settings).

Definition sNewErrorLogger (cfg : option SConfig)
           (settings : list SSetting) : Outcome SConfig :=
  Logger.NewErrorLogger _ _ _ _ _ samplePath pathFormatter cfg
             (map (LoggerSettings.toOption _ _ _ _ _ _ withField) settings).

Definition blank : SParams :=
  Logger.mkParams Z unit 0 200 0 "" "" "" "" true 0 tt "" "" "" "" "" "" ""
                  "".

Definition firstSettings : list SSetting :=
  [ LoggerSettings.SetLogger Z unit string unit unit (Some "app");
    LoggerSettings.SetExcludeRegexEndpoint Z unit string unit unit
      ["/healthz"] ].

Definition laterSettings : list SSetting :=
  [ LoggerSettings.SetExcludeRegexMethod Z unit string unit unit
      ["OPTIONS"] ].

Definition nilLoggerSettings : list SSetting :=
  [ LoggerSettings.SetBodyLength Z unit string unit unit 1024;
    LoggerSettings.SetLogger Z unit string unit unit None ].

Definition limits (bodyLength rawDataLength : Z) : SConfig :=
  Logger.mkConfig _ _ _ _ _ None None [] [] [] None None None
                  bodyLength rawDataLength.

End LoggerSamples.

(* ===================================================================== *)
(** * Prefix and suffix tests                                            *)
(* ===================================================================== *)

Section StringFacts.

Local Open Scope nat_scope.

Lemma string_length_app (s t : string) :
  String.length (s +:+ t) = String.length s + String.length t.
Proof. induction s as [|a s IH]; simpl; [reflexivity | now rewrite IH]. Qed.

Lemma substring_all (s : string) :
  String.substring 0 (String.length s) s = s.
Proof. induction s as [|a s IH]; simpl; [reflexivity | now rewrite IH]. Qed.

Lemma substring_head (p rest : string) :
  String.substring 0 (String.length p) (p +:+ rest) = p.
Proof.
  induction p as [|a p IH]; simpl.
  - now destruct rest.
  - now rewrite IH.
Qed.

Lemma substring_skip (front s : string) (m : nat) :
  String.substring (String.length front) m (front +:+ s)
  = String.substring 0 m s.
Proof. induction front as [|a front IH]; simpl; [reflexivity | exact IH]. Qed.

(** A string is what comes before position [n] followed by the rest. *)
Lemma substring_split (s : string) (n : nat) :
  n <= String.length s ->
  s = String.substring 0 n s
      +:+ String.substring n (String.length s - n) s.
Proof.
  revert n; induction s as [|a s IH]; intros n Hn; simpl in *.
  - destruct n; [reflexivity | lia].
  - destruct n as [|n]; simpl.
    + now rewrite substring_all.
    + transitivity
        (String a (String.substring 0 n s
                   +:+ String.substring n (String.length s - n) s));
        [f_equal; apply IH; lia | reflexivity].
Qed.

Lemma HasPrefix_starts_with (s prefix : string) :
  Strings.HasPrefix s prefix = true <-> Strings.starts_with s prefix.
Proof.
  unfold Strings.HasPrefix, Strings.starts_with. split.
  - intros H. apply andb_prop in H as [Hlen Heq].
    apply Nat.leb_le in Hlen. apply String.eqb_eq in Heq.
    exists (String.substring (String.length prefix)
                             (String.length s - String.length prefix) s).
    pose proof (substring_split s (String.length prefix) Hlen) as Hsplit.
    now rewrite Heq in Hsplit.
  - intros [rest ->]. apply andb_true_intro. split.
    + apply Nat.leb_le. rewrite string_length_app. lia.
    + apply String.eqb_eq, substring_head.
Qed.

Lemma HasSuffix_ends_with (s suffix : string) :
  Strings.HasSuffix s suffix = true <-> Strings.ends_with s suffix.
Proof.
  unfold Strings.HasSuffix, Strings.ends_with. split.
  - intros H. apply andb_prop in H as [Hlen Heq].
    apply Nat.leb_le in Hlen. apply String.eqb_eq in Heq.
    exists (String.substring 0 (String.length s - String.length suffix) s).
    pose proof (substring_split s (String.length s - String.length suffix))
      as Hsplit.
    replace (String.length s - (String.length s - String.length suffix))
      with (String.length suffix) in Hsplit by lia.
    rewrite Heq in Hsplit. apply Hsplit. lia.
  - intros [front ->]. apply andb_true_intro. split.
    + apply Nat.leb_le. rewrite string_length_app. lia.
    + apply String.eqb_eq. rewrite string_length_app.
      replace (String.length front + String.length suffix
               - String.length suffix) with (String.length front) by lia.
      rewrite substring_skip. apply substring_all.
Qed.

End StringFacts.

(* ===================================================================== *)
(** * CORS: origin validation                                            *)
(* ===================================================================== *)

Import Gin Gcors CorsSpec LoggerSpec.

(** Unfolding the monad. *)
Ltac run :=
  unfold mbind, M_bind, mret, M_ret, get_ctx, put_ctx, emit, panic,
    slice_at in *; simpl in *.

Section WildcardFacts.

Lemma rule_matchesb_spec (prefix suffix origin : string) :
  rule_matchesb prefix suffix origin = true
  <-> rule_matches prefix suffix origin.
Proof.
  unfold rule_matchesb, rule_matches.
  rewrite !orb_true_iff, !andb_true_iff, !String.eqb_eq,
    !HasPrefix_starts_with, !HasSuffix_ends_with.
  tauto.
Qed.

Lemma wildcardRuleMatches_two (origin prefix suffix : string) (w : World) :
  wildcardRuleMatches origin [prefix; suffix] w
  = Ok (rule_matchesb prefix suffix origin) w.
Proof.
  unfold wildcardRuleMatches, rule_matchesb. run.
  destruct (String.eqb prefix "*"), (Strings.HasSuffix origin suffix),
    (String.eqb suffix "*"), (Strings.HasPrefix origin prefix);
    reflexivity.
Qed.

Lemma two_part_cons (w : list string) (rules : list (list string)) :
  two_part (w :: rules) ->
  (exists prefix suffix, w = [prefix; suffix]) /\ two_part rules.
Proof.
  unfold two_part. simpl. intros H. apply andb_prop in H as [Hw Hr].
  split; [|exact Hr].
  destruct w as [|p [|s [|x w]]]; simpl in Hw; try discriminate.
  now exists p, s.
Qed.

Lemma wildcardLoop_two_part (origin : string) (rules : list (list string))
      (w : World) :
  two_part rules ->
  wildcardLoop origin rules w = Ok (some_rule_matchesb rules origin) w.
Proof.
  induction rules as [|r rules IH]; intros Hwf; [reflexivity|].
  apply two_part_cons in Hwf as [(p & s & ->) Hwf].
  simpl. unfold mbind, M_bind. rewrite wildcardRuleMatches_two.
  destruct (rule_matchesb p s origin); [reflexivity|].
  simpl. now apply IH.
Qed.

Lemma some_rule_matchesb_spec (rules : list (list string))
      (origin : string) :
  some_rule_matchesb rules origin = true
  <-> some_rule_matches rules origin.
Proof.
  unfold some_rule_matchesb, some_rule_matches.
  rewrite existsb_exists. split.
  - intros (r & Hin & Hm).
    destruct r as [|p [|s [|x r]]]; try discriminate.
    exists p, s. split; [now apply list_elem_of_In|].
    now apply rule_matchesb_spec.
  - intros (p & s & Hin & Hm). exists [p; s].
    split; [now apply list_elem_of_In|]. now apply rule_matchesb_spec.
Qed.

End WildcardFacts.

(** Claim C2.  When every stored pattern has its two parts, a stored
    pattern [(prefix, suffix)] matches an origin exactly when [prefix] is
    ["*"] and the origin ends with [suffix], or [suffix] is ["*"] and the
    origin starts with [prefix], or the origin starts with [prefix] and
    ends with [suffix]; [validateWildcardOrigin] returns, leaves the
    state alone, and answers [true] exactly when some stored pattern
    matches, [false] when none does, in particular on an empty list. *)
Theorem validateWildcardOrigin_matches
        (g : gCors) (origin : string) (w : World)
        (Hwf : two_part (wildcardOrigins g)) :
  (forall prefix suffix,
      [prefix; suffix] ∈ wildcardOrigins g ->
      exists hit, wildcardRuleMatches origin [prefix; suffix] w = Ok hit w
                  /\ (hit = true <-> rule_matches prefix suffix origin))
  /\ exists found,
      validateWildcardOrigin g origin w = Ok found w
      /\ (found = true <-> some_rule_matches (wildcardOrigins g) origin)
      /\ (found = false <-> ~ some_rule_matches (wildcardOrigins g) origin)
      /\ (wildcardOrigins g = [] -> found = false).
Proof.
  split.
  - intros p s _. exists (rule_matchesb p s origin).
    split; [apply wildcardRuleMatches_two | apply rule_matchesb_spec].
  - exists (some_rule_matchesb (wildcardOrigins g) origin).
    split; [now apply wildcardLoop_two_part|].
    split; [apply some_rule_matchesb_spec|]. split.
    + rewrite <- some_rule_matchesb_spec.
      destruct (some_rule_matchesb _ _); split; congruence.
    + intros ->. reflexivity.
Qed.


Lemma exact_match_decide (origin : string) (origins : list string) :
  existsb (fun value => String.eqb value origin) origins
  = bool_decide (origin ∈ origins).
Proof.
  induction origins as [|o origins IH]; simpl.
  - reflexivity.
  - destruct (String.eqb_spec o origin) as [->|Hne]; simpl.
    + symmetry. apply bool_decide_eq_true_2. apply list_elem_of_here.
    + rewrite IH. apply bool_decide_ext. rewrite elem_of_cons.
      split; [tauto | intros [E|E]; [congruence | exact E]].
Qed.

Lemma wildcard_guard (g : gCors) (origin : string) :
  (if 0 <? Z.of_nat (length (wildcardOrigins g))
   then validateWildcardOrigin g origin else mret false)
  = validateWildcardOrigin g origin.
Proof.
  unfold validateWildcardOrigin.
  destruct (wildcardOrigins g) as [|r rules]; [reflexivity|].
  replace (0 <? Z.of_nat (length (r :: rules))) with true; [reflexivity|].
  symmetry. apply Z.ltb_lt. simpl length. lia.
Qed.

(** Claim C1.  On a policy whose wildcard patterns all have their two
    parts, origin validation is the first-match cascade over the five
    checks in the order of the specification: allow-all flag, exact entry
    of [allowOrigins], some wildcard pattern matching the origin (in the
    sense of [rule_matches]), plain predicate when configured,
    context-aware predicate when configured.  The first check that
    succeeds accepts and no later check is run (a later predicate is not
    called); when all fail the origin is rejected. *)
Theorem isOriginValid_first_match
        (g : gCors) (origin : string) (w : World) (matched : bool) :
  two_part (wildcardOrigins g) ->
  (matched = true <-> some_rule_matches (wildcardOrigins g) origin) ->
  isOriginValid g origin w
  = first_success (origin_checks g origin matched) w.
Proof.
  intros Hwf Hmatched.
  assert (Hb : some_rule_matchesb (wildcardOrigins g) origin = matched).
  { pose proof (some_rule_matchesb_spec (wildcardOrigins g) origin) as Hs.
    destruct (some_rule_matchesb (wildcardOrigins g) origin), matched;
      try reflexivity.
    - symmetry. apply Hmatched, Hs. reflexivity.
    - apply Hs, Hmatched. reflexivity. }
  unfold isOriginValid, validateOrigin.
  rewrite wildcard_guard, exact_match_decide.
  unfold origin_checks, first_success,
    check_allow_all, check_exact, check_wildcard, check_predicate,
    check_context_predicate, validateWildcardOrigin.
  run.
  destruct (allowAllOrigins g); simpl.
  { now destruct (allowOriginWithContextFunc g). }
  destruct (bool_decide (origin ∈ allowOrigins g)); simpl.
  { now destruct (allowOriginWithContextFunc g). }
  rewrite (wildcardLoop_two_part _ _ _ Hwf), Hb.
  destruct matched; simpl; [reflexivity|].
  destruct (allowOriginFunc g) as [f|]; simpl.
  - destruct (f origin); simpl.
    + now destruct (allowOriginWithContextFunc g).
    + destruct (allowOriginWithContextFunc g) as [h|]; simpl;
        [now destruct (h _ origin) | reflexivity].
  - destruct (allowOriginWithContextFunc g) as [h|]; simpl;
      [now destruct (h _ origin) | reflexivity].
Qed.

(* ===================================================================== *)
(** * CORS: what [applyCors] does to the response                        *)
(* ===================================================================== *)

Section ApplyFacts.

Lemma assign_is_union (headers h0 : HeaderMap) :
  map_fold (fun key value header => <[key := value]> header) h0 headers
  = headers ∪ h0.
Proof.
  apply (map_fold_weak_ind (fun r m => r = m ∪ h0)).
  - now rewrite (left_id_L ∅ (∪)).
  - intros k v m r _ ->. now rewrite insert_union_l.
Qed.

Lemma wildcardRuleMatches_frame (origin : string) (r : list string)
      (w w' : World) (hit : bool) :
  wildcardRuleMatches origin r w = Ok hit w' -> w' = w.
Proof.
  unfold wildcardRuleMatches. run.
  destruct r as [|p [|s r]]; simpl.
  - discriminate.
  - destruct (String.eqb p "*"); simpl; discriminate.
  - destruct (String.eqb p "*"), (Strings.HasSuffix origin s),
      (String.eqb s "*"), (Strings.HasPrefix origin p); simpl;
      intros [= _ <-]; reflexivity.
Qed.

Lemma wildcardLoop_frame (origin : string) (rules : list (list string))
      (w w' : World) (hit : bool) :
  wildcardLoop origin rules w = Ok hit w' -> w' = w.
Proof.
  induction rules as [|r rules IH]; simpl.
  - intros [= _ <-]; reflexivity.
  - unfold mbind, M_bind.
    destruct (wildcardRuleMatches origin r w) as [[|] w0| |] eqn:E;
      try discriminate.
    + apply wildcardRuleMatches_frame in E as ->.
      intros [= _ <-]; reflexivity.
    + apply wildcardRuleMatches_frame in E as ->. exact IH.
Qed.

(** Validation leaves the context alone and only records calls. *)
Lemma isOriginValid_frame (g : gCors) (origin : string) (w w1 : World)
      (valid : bool) :
  isOriginValid g origin w = Ok valid w1 ->
  ctx w1 = ctx w
  /\ exists calls, log w1 = (log w ++ calls)%list
                   /\ existsb writes_header calls = false.
Proof.
  unfold isOriginValid, validateOrigin. rewrite wildcard_guard. run.
  assert (Hnil : forall w0 : World,
             ctx w0 = ctx w0
             /\ exists calls, log w0 = (log w0 ++ calls)%list
                              /\ existsb writes_header calls = false).
  { intros w0. split; [reflexivity|]. exists []. now rewrite app_nil_r. }
  destruct (allowAllOrigins g); simpl.
  { destruct (allowOriginWithContextFunc g); intros [= _ <-]; apply Hnil. }
  destruct (existsb _ (allowOrigins g)); simpl.
  { destruct (allowOriginWithContextFunc g); intros [= _ <-]; apply Hnil. }
  destruct (validateWildcardOrigin g origin w) as [[|] w0| |] eqn:E; simpl;
    try discriminate.
  { apply wildcardLoop_frame in E as ->.
    destruct (allowOriginWithContextFunc g); intros [= _ <-]; apply Hnil. }
  apply wildcardLoop_frame in E as ->.
  destruct (allowOriginFunc g) as [f|]; simpl.
  - destruct (f origin); simpl.
    + destruct (allowOriginWithContextFunc g); intros [= _ <-]; simpl;
        (split; [reflexivity|]); eexists; (split; [reflexivity|]);
        reflexivity.
    + destruct (allowOriginWithContextFunc g); intros [= _ <-]; simpl;
        (split; [reflexivity|]).
      * exists [EvCall "allowOriginFunc" origin;
                EvCall "allowOriginWithContextFunc" origin].
        split; [now rewrite <- app_assoc | reflexivity].
      * eexists; (split; [reflexivity|]); reflexivity.
  - destruct (allowOriginWithContextFunc g); intros [= _ <-]; simpl.
    + split; [reflexivity|]. eexists; (split; [reflexivity|]); reflexivity.
    + apply Hnil.
Qed.

Lemma cross_origin_guards (c : Context) :
  classify c = CrossOrigin ->
  (Z.of_nat (String.length (requestOrigin c)) =? 0) = false
  /\ String.eqb (requestOrigin c) ("http://" +:+ Host (Req c))
     || String.eqb (requestOrigin c) ("https://" +:+ Host (Req c)) = false.
Proof.
  unfold classify.
  destruct (String.eqb_spec (requestOrigin c) "") as [E|Hne];
    [discriminate|].
  destruct (String.eqb (requestOrigin c) ("http://" +:+ Host (Req c)));
    [discriminate|].
  destruct (String.eqb (requestOrigin c) ("https://" +:+ Host (Req c)));
    [discriminate|].
  intros _. split; [|reflexivity].
  apply Z.eqb_neq. destruct (requestOrigin c); [congruence|].
  simpl String.length. lia.
Qed.

Lemma applyCors_rejected (g : gCors) (w w1 : World) :
  classify (ctx w) = CrossOrigin ->
  isOriginValid g (requestOrigin (ctx w)) w = Ok false w1 ->
  applyCors g w
  = Ok tt (mkWorld (aborted StatusForbidden (ctx w))
                   (log w1 ++ [EvAbortWithStatus StatusForbidden
                                 (WriterHeader (ctx w))])).
Proof.
  intros Hc Hv. destruct (cross_origin_guards _ Hc) as [G1 G2].
  pose proof (isOriginValid_frame _ _ _ _ _ Hv) as [Hctx _].
  unfold applyCors. run. fold (requestOrigin (ctx w)).
  rewrite G1, G2, Hv. simpl.
  unfold AbortWithStatus. run. now rewrite Hctx.
Qed.

(** [AbortWithStatus] by the status code it is given. *)
Lemma abort_valid (code : Z) (w : World) :
  valid_status code ->
  AbortWithStatus code w
  = Ok tt (mkWorld (aborted code (ctx w))
                   (log w ++ [EvAbortWithStatus code (WriterHeader (ctx w))])).
Proof.
  unfold valid_status, AbortWithStatus, Status, WriteHeaderNow, Abort.
  intros H. run.
  replace (0 <? code) with true by (symmetry; apply Z.ltb_lt; lia).
  simpl.
  replace (code <? 100) with false by (symmetry; apply Z.ltb_ge; lia).
  replace (999 <? code) with false by (symmetry; apply Z.ltb_ge; lia).
  reflexivity.
Qed.

Lemma abort_ignored (code : Z) (w : World) :
  code <= 0 ->
  valid_status (WriterStatus (ctx w)) ->
  AbortWithStatus code w
  = Ok tt (mkWorld (set_index abortIndex (ctx w))
                   (log w ++ [EvAbortWithStatus (WriterStatus (ctx w))
                                (WriterHeader (ctx w))])).
Proof.
  unfold valid_status, AbortWithStatus, Status, WriteHeaderNow, Abort.
  intros Hc H. run.
  replace (0 <? code) with false by (symmetry; apply Z.ltb_ge; lia).
  simpl.
  replace (WriterStatus (ctx w) <? 100) with false
    by (symmetry; apply Z.ltb_ge; lia).
  replace (999 <? WriterStatus (ctx w)) with false
    by (symmetry; apply Z.ltb_ge; lia).
  reflexivity.
Qed.

Lemma abort_invalid (code : Z) (w : World) :
  0 < code -> ~ valid_status code ->
  AbortWithStatus code w
  = Panic "invalid WriteHeader code"
          (mkWorld (set_status code (ctx w)) (log w)).
Proof.
  unfold valid_status, AbortWithStatus, Status, WriteHeaderNow, Abort.
  intros Hc H. run.
  replace (0 <? code) with true by (symmetry; apply Z.ltb_lt; lia).
  simpl.
  destruct (Z.ltb_spec code 100); [reflexivity|].
  destruct (Z.ltb_spec 999 code); [reflexivity|]. lia.
Qed.

(** However it ends, [AbortWithStatus] leaves request, response headers
    and earlier events alone, and logs no header write. *)
Lemma abort_frame (code : Z) (w : World) :
  exists w',
    (AbortWithStatus code w = Ok tt w'
     \/ AbortWithStatus code w = Panic "invalid WriteHeader code" w')
    /\ Req (ctx w') = Req (ctx w)
    /\ WriterHeader (ctx w') = WriterHeader (ctx w)
    /\ exists events,
        log w' = (log w ++ events)%list
        /\ List.filter sets_allow_origin events = [].
Proof.
  unfold AbortWithStatus, Status, WriteHeaderNow, Abort. run.
  destruct (0 <? code); simpl.
  - destruct ((code <? 100) || (999 <? code)); simpl; eexists.
    + split; [right; reflexivity|]. simpl.
      split; [reflexivity|]. split; [reflexivity|].
      exists []. split; [now rewrite app_nil_r | reflexivity].
    + split; [left; reflexivity|]. simpl.
      split; [reflexivity|]. split; [reflexivity|].
      eexists. split; reflexivity.
  - destruct ((WriterStatus (ctx w) <? 100) || (999 <? WriterStatus (ctx w)));
      simpl; eexists.
    + split; [right; reflexivity|]. simpl.
      split; [reflexivity|]. split; [reflexivity|].
      exists []. split; [now rewrite app_nil_r | reflexivity].
    + split; [left; reflexivity|]. simpl.
      split; [reflexivity|]. split; [reflexivity|].
      eexists. split; reflexivity.
Qed.

Lemma result_eta (r : Result World unit) :
  match r with
  | Ok _ w' => Ok tt w'
  | Panic reason w' => Panic reason w'
  | OutOfFuel => OutOfFuel
  end = r.
Proof. now destruct r as [[] ?|? ?|]. Qed.

(** An accepted cross-origin request: the headers are written, then the
    deferred abort runs when the request is a preflight. *)
Lemma applyCors_accepted_deferred (g : gCors) (w w1 : World) :
  classify (ctx w) = CrossOrigin ->
  isOriginValid g (requestOrigin (ctx w)) w = Ok true w1 ->
  applyCors g w
  = (if String.eqb (Method (Req (ctx w))) "OPTIONS"
     then AbortWithStatus (optionsResponseStatusCode g)
     else mret tt) (preparedWorld g (ctx w) (log w1)).
Proof.
  intros Hc Hv. destruct (cross_origin_guards _ Hc) as [G1 G2].
  pose proof (isOriginValid_frame _ _ _ _ _ Hv) as [Hctx _].
  assert (Hne : String.eqb (requestOrigin (ctx w)) "" = false).
  { unfold classify in Hc.
    now destruct (String.eqb (requestOrigin (ctx w)) ""). }
  unfold applyCors. run. fold (requestOrigin (ctx w)).
  rewrite G1, G2, Hv. simpl.
  unfold preparedWorld, echoEvents, acceptedHeaders, branchHeaders,
    handlePreflight, handleNormal, assignHeaders, Context_Header.
  run.
  destruct (String.eqb (Method (Req (ctx w))) "OPTIONS"),
    (allowAllOrigins g); simpl; rewrite ?Hne; simpl; run;
    rewrite ?Hctx, ?assign_is_union, <- ?app_assoc, ?result_eta;
    reflexivity.
Qed.

Lemma applyCors_accepted (g : gCors) (w w1 : World) :
  classify (ctx w) = CrossOrigin ->
  isOriginValid g (requestOrigin (ctx w)) w = Ok true w1 ->
  (Method (Req (ctx w)) = "OPTIONS" ->
   valid_status (optionsResponseStatusCode g)) ->
  applyCors g w
  = Ok tt (mkWorld (acceptedContext g (ctx w))
                   (log w1 ++ acceptedEvents g (ctx w))).
Proof.
  intros Hc Hv Hvalid. rewrite (applyCors_accepted_deferred g w w1 Hc Hv).
  unfold preparedWorld, echoEvents, acceptedContext, acceptedEvents.
  destruct (String.eqb_spec (Method (Req (ctx w))) "OPTIONS") as [E|E].
  - rewrite (abort_valid _ _ (Hvalid E)). cbn [ctx log].
    unfold aborted. simpl.
    now destruct (allowAllOrigins g); rewrite <- ?app_assoc.
  - unfold mret, M_ret.
    now destruct (allowAllOrigins g); rewrite ?app_nil_r.
Qed.

Lemma wrap8_small (z : Z) : -128 <= z < 128 -> wrap8 z = z.
Proof. intros H. unfold wrap8. rewrite Z.mod_small; lia. Qed.

(** A handler that aborts is the last one the loop of [Next] runs. *)
Lemma handlersLoop_stops (handlers : list HandlerFunc) (h : HandlerFunc)
      (fuel : nat) (w w' : World) :
  0 <= index (ctx w) ->
  Z.of_nat (length handlers) < abortIndex ->
  handlers !! Z.to_nat (index (ctx w)) = Some h ->
  h w = Ok tt w' ->
  IsAborted (ctx w') = true ->
  index (ctx w') < 127 ->
  handlersLoop (S (S fuel)) handlers w = Ok tt (advance w').
Proof.
  unfold abortIndex, IsAborted. intros H0 Hlen Hh Hrun Hab Hmax.
  apply Z.leb_le in Hab. unfold abortIndex in Hab.
  pose proof (lookup_lt_Some _ _ _ Hh) as Hlt.
  cbn [handlersLoop].
  unfold mbind, M_bind, mret, M_ret, get_ctx, put_ctx, panic.
  cbn beta iota.
  rewrite (wrap8_small (Z.of_nat (length handlers))) by lia.
  replace (index (ctx w) <? Z.of_nat (length handlers)) with true
    by (symmetry; apply Z.ltb_lt; lia).
  replace (index (ctx w) <? 0) with false
    by (symmetry; apply Z.ltb_ge; lia).
  rewrite Hh, Hrun. cbn [ctx log index set_index].
  rewrite (wrap8_small (index (ctx w') + 1)) by lia.
  replace (index (ctx w') + 1 <? Z.of_nat (length handlers)) with false
    by (symmetry; apply Z.ltb_ge; lia).
  unfold advance. rewrite (wrap8_small (index (ctx w') + 1)) by lia.
  reflexivity.
Qed.

End ApplyFacts.

Section Verdicts.

(** Validation when every check fails: the verdict is "reject", the
    context is as before, and each configured predicate was called
    once, the plain one first. *)
Lemma isOriginValid_all_fail (g : gCors) (origin : string) (w : World) :
  allowAllOrigins g = false ->
  origin ∉ allowOrigins g ->
  two_part (wildcardOrigins g) ->
  ~ some_rule_matches (wildcardOrigins g) origin ->
  (forall f, allowOriginFunc g = Some f -> f origin = false) ->
  (forall f, allowOriginWithContextFunc g = Some f ->
             f (ctx w) origin = false) ->
  isOriginValid g origin w
  = Ok false (mkWorld (ctx w) (log w ++ predicate_calls g origin)).
Proof.
  intros Hall Hex Hwf Hwild Hf Hh.
  unfold isOriginValid, validateOrigin, predicate_calls.
  rewrite wildcard_guard, exact_match_decide, Hall.
  rewrite (bool_decide_eq_false_2 _ Hex).
  unfold validateWildcardOrigin. run.
  rewrite (wildcardLoop_two_part _ _ _ Hwf).
  destruct (some_rule_matchesb (wildcardOrigins g) origin) eqn:E.
  { apply some_rule_matchesb_spec in E. contradiction. }
  destruct (allowOriginFunc g) as [f|]; simpl.
  - rewrite (Hf f eq_refl). simpl.
    destruct (allowOriginWithContextFunc g) as [h|]; simpl.
    + rewrite (Hh h eq_refl). now rewrite <- app_assoc.
    + reflexivity.
  - destruct (allowOriginWithContextFunc g) as [h|]; simpl.
    + now rewrite (Hh h eq_refl).
    + destruct w. simpl. now rewrite app_nil_r.
Qed.

Lemma predicate_calls_write_nothing (g : gCors) (origin : string) :
  existsb writes_header (predicate_calls g origin) = false.
Proof.
  unfold predicate_calls.
  now destruct (allowOriginFunc g), (allowOriginWithContextFunc g).
Qed.

Lemma isOriginValid_allow_all (g : gCors) (origin : string) (w : World) :
  allowAllOrigins g = true -> isOriginValid g origin w = Ok true w.
Proof.
  intros Hall. unfold isOriginValid, validateOrigin. rewrite Hall. run.
  now destruct (allowOriginWithContextFunc g).
Qed.

Lemma absent_origin (c : Context) :
  Header (Req c) !! "Origin" = None -> requestOrigin c = "".
Proof. unfold requestOrigin, Header_Get. now intros ->. Qed.

End Verdicts.

(** The loop over [AllowOrigins] sets the flag exactly when it meets
    ["*"], and touches nothing else. *)
Lemma promote_fold (origins : list string) (config : Config) :
  fold_left
    (fun cfg origin =>
       if String.eqb origin "*" then setAllowAllOrigins true cfg else cfg)
    origins config
  = if bool_decide ("*" ∈ origins)
    then setAllowAllOrigins true config else config.
Proof.
  revert config. induction origins as [|o origins IH]; intros config.
  - reflexivity.
  - simpl fold_left. rewrite IH.
    destruct (String.eqb_spec o "*") as [->|Hne].
    + rewrite (bool_decide_eq_true_2 ("*" ∈ "*" :: origins))
        by apply list_elem_of_here.
      now destruct (bool_decide ("*" ∈ origins)).
    + apply (f_equal (fun b : bool =>
                        if b then setAllowAllOrigins true config
                        else config)).
      apply bool_decide_ext. rewrite elem_of_cons.
      split; [tauto | intros [E|E]; [congruence | exact E]].
Qed.

Lemma promoteStar_decide (config : Config) :
  promoteStar config
  = if bool_decide ("*" ∈ AllowOrigins config)
    then setAllowAllOrigins true config else config.
Proof. apply promote_fold. Qed.


Section Construction.

Variable Validate : Config -> option string.
Variable normalize : list string -> list string.
Variable generateNormalHeaders : Config -> HeaderMap.
Variable generatePreflightHeaders : Config -> HeaderMap.
Variable parseWildcardRules : Config -> Outcome (list (list string)).


End Construction.

(* ===================================================================== *)
(** * CORS: the properties of the specification                          *)
(* ===================================================================== *)

(** Claim C3.  A cross-origin request whose origin fails every check
    (the policy does not allow all origins, the origin is no entry of
    [allowOrigins], no wildcard pattern matches it, and each configured
    predicate returns false) is aborted with status 403: [applyCors]
    writes no response header before the abort, the headers cut short
    are the ones the response had, and the loop of [Next] runs no handler
    after it. *)
Theorem applyCors_rejects_with_403
        (g : gCors) (w : World) (origin : string) :
  classify (ctx w) = CrossOrigin ->
  origin = requestOrigin (ctx w) ->
  allowAllOrigins g = false ->
  origin ∉ allowOrigins g ->
  two_part (wildcardOrigins g) ->
  ~ some_rule_matches (wildcardOrigins g) origin ->
  (forall f, allowOriginFunc g = Some f -> f origin = false) ->
  (forall f, allowOriginWithContextFunc g = Some f ->
             f (ctx w) origin = false) ->
  let calls := predicate_calls g origin in
  let w' :=
    mkWorld (aborted StatusForbidden (ctx w))
            (log w ++ calls
             ++ [EvAbortWithStatus StatusForbidden (WriterHeader (ctx w))]) in
  applyCors g w = Ok tt w'
  /\ existsb writes_header calls = false
  /\ WriterHeader (ctx w') = WriterHeader (ctx w)
  /\ WriterStatus (ctx w') = 403
  /\ IsAborted (ctx w') = true
  /\ forall (handlers : list HandlerFunc) (fuel : nat),
      0 <= index (ctx w) ->
      Z.of_nat (length handlers) < abortIndex ->
      handlers !! Z.to_nat (index (ctx w)) = Some (applyCors g) ->
      handlersLoop (S (S fuel)) handlers w = Ok tt (advance w').
Proof.
  intros Hc -> Hall Hex Hwf Hwild Hf Hh calls w'.
  assert (Hrun : applyCors g w = Ok tt w').
  { rewrite (applyCors_rejected g w _ Hc
               (isOriginValid_all_fail g _ w Hall Hex Hwf Hwild Hf Hh)).
    subst w' calls. simpl. now rewrite <- app_assoc. }
  split; [exact Hrun|].
  split; [apply predicate_calls_write_nothing|].
  repeat (split; [reflexivity|]).
  intros handlers fuel H0 Hlen Hh'.
  apply (handlersLoop_stops handlers (applyCors g) fuel w w');
    try assumption; [reflexivity | simpl; unfold abortIndex; lia].
Qed.

(** Claim C4.  For an accepted cross-origin request, when the policy
    does not allow all origins, [applyCors] calls
    [c.Header("Access-Control-Allow-Origin", origin)] exactly once, with
    the request's own [Origin] value, and the response carries exactly
    that value under the key, whichever branch (preflight or normal) the
    request takes; when the policy allows all origins that call is never
    made, and the response headers are the branch's precomputed set laid
    over the headers the response had.  This is so in the world
    [applyCors] leaves, whether it returns or, in the preflight branch,
    panics in the deferred abort on a status [net/http] refuses; it
    returns whenever the request is not a preflight or the preflight
    status is valid. *)
Theorem applyCors_echoes_origin
        (g : gCors) (w w1 : World) (origin : string) :
  classify (ctx w) = CrossOrigin ->
  origin = requestOrigin (ctx w) ->
  isOriginValid g origin w = Ok true w1 ->
  exists (w2 : World) (events : list Event),
    (applyCors g w = Ok tt w2
     \/ (Method (Req (ctx w)) = "OPTIONS"
         /\ applyCors g w = Panic "invalid WriteHeader code" w2))
    /\ (Method (Req (ctx w)) <> "OPTIONS"
        \/ valid_status (optionsResponseStatusCode g) ->
        applyCors g w = Ok tt w2)
    /\ log w2 = (log w1 ++ events)%list
    /\ (allowAllOrigins g = false ->
        List.filter sets_allow_origin events = [EvHeader ACAO origin]
        /\ WriterHeader (ctx w2) !! ACAO = Some [origin])
    /\ (allowAllOrigins g = true ->
        List.filter sets_allow_origin events = []
        /\ WriterHeader (ctx w2)
           = branchHeaders g (ctx w) ∪ WriterHeader (ctx w)).
Proof.
  intros Hc -> Hv.
  rewrite (applyCors_accepted_deferred g w w1 Hc Hv).
  assert (Hprep :
            forall events',
              List.filter sets_allow_origin events' = [] ->
              (allowAllOrigins g = false ->
               List.filter sets_allow_origin
                 ([EvAssignHeaders (branchHeaders g (ctx w))]
                  ++ echoEvents g (ctx w) ++ events')
               = [EvHeader ACAO (requestOrigin (ctx w))]
               /\ acceptedHeaders g (ctx w) !! ACAO
                  = Some [requestOrigin (ctx w)])
              /\ (allowAllOrigins g = true ->
                  List.filter sets_allow_origin
                    ([EvAssignHeaders (branchHeaders g (ctx w))]
                     ++ echoEvents g (ctx w) ++ events') = []
                  /\ acceptedHeaders g (ctx w)
                     = branchHeaders g (ctx w) ∪ WriterHeader (ctx w))).
  { intros events' Hnone. unfold echoEvents, acceptedHeaders.
    split; intros ->; simpl; rewrite Hnone;
      (split; [reflexivity|]); [apply lookup_insert_eq | reflexivity]. }
  destruct (String.eqb_spec (Method (Req (ctx w))) "OPTIONS") as [E|E].
  - destruct (abort_frame (optionsResponseStatusCode g)
                          (preparedWorld g (ctx w) (log w1)))
      as (w2 & Hres & _ & Hhdr & events' & Hlog & Hnone).
    exists w2,
      ([EvAssignHeaders (branchHeaders g (ctx w))]
       ++ echoEvents g (ctx w) ++ events')%list.
    split; [destruct Hres as [Hres|Hres]; [now left | now right]|].
    split.
    { intros [Hno|Hvalid]; [contradiction|].
      destruct Hres as [Hres|Hres]; [exact Hres|].
      rewrite (abort_valid _ _ Hvalid) in Hres. discriminate Hres. }
    split.
    { rewrite Hlog. unfold preparedWorld. cbn [log].
      now rewrite <- !app_assoc. }
    rewrite Hhdr. unfold preparedWorld. cbn [ctx WriterHeader set_header].
    exact (Hprep events' Hnone).
  - exists (preparedWorld g (ctx w) (log w1)),
      ([EvAssignHeaders (branchHeaders g (ctx w))]
       ++ echoEvents g (ctx w) ++ [])%list.
    split; [now left|]. split; [reflexivity|].
    split.
    { unfold preparedWorld. cbn [log]. now rewrite app_nil_r. }
    unfold preparedWorld. cbn [ctx WriterHeader set_header].
    exact (Hprep [] eq_refl).
Qed.


(** Claim C6.  A request without an [Origin] header, and a request whose
    [Origin] is ["http://" + host] or ["https://" + host] for its own
    host, passes through [applyCors] untouched: the call returns, the
    context (response headers, status, position in the chain) is the one
    it was given, and the log is as before, so that no header was
    written, nothing was aborted and no validation predicate was
    called. *)
Theorem applyCors_passes_through (g : gCors) (w : World) :
  Header (Req (ctx w)) !! "Origin" = None
  \/ requestOrigin (ctx w) = "http://" +:+ Host (Req (ctx w))
  \/ requestOrigin (ctx w) = "https://" +:+ Host (Req (ctx w)) ->
  applyCors g w = Ok tt w.
Proof.
  intros H. unfold applyCors. run. fold (requestOrigin (ctx w)).
  destruct (Z.of_nat (String.length (requestOrigin (ctx w))) =? 0) eqn:E;
    [reflexivity|].
  destruct H as [H|[H|H]].
  - apply absent_origin in H. rewrite H in E. discriminate.
  - rewrite <- H, String.eqb_refl. reflexivity.
  - rewrite <- H, String.eqb_refl, orb_true_r. reflexivity.
Qed.

(** Claim C7.  When some entry of [AllowOrigins] is exactly ["*"], the
    policy [newCors] builds has [allowAllOrigins] set: it accepts every
    origin without consulting a predicate, and it is the very policy
    [newCors] builds from the same configuration with the allow-all flag
    set. *)
Theorem newCors_star_allows_all
        (Validate : Config -> option string)
        (normalize : list string -> list string)
        (generateNormalHeaders generatePreflightHeaders
           : Config -> HeaderMap)
        (parseWildcardRules : Config -> Outcome (list (list string)))
        (config : Config) (g : gCors) :
  "*" ∈ AllowOrigins config ->
  newCors Validate normalize generateNormalHeaders generatePreflightHeaders
          parseWildcardRules config = Returns g ->
  allowAllOrigins g = true
  /\ (forall origin w, isOriginValid g origin w = Ok true w)
  /\ (forall g',
         newCors Validate normalize generateNormalHeaders
                 generatePreflightHeaders parseWildcardRules
                 (setAllowAllOrigins true config) = Returns g' ->
         g' = g).
Proof.
  intros Hstar Hnew.
  assert (Hall : allowAllOrigins g = true).
  { revert Hnew. unfold newCors. destruct (Validate config); [discriminate|].
    destruct (parseWildcardRules _); [|discriminate].
    intros [= <-]. simpl. rewrite promoteStar_decide.
    rewrite (bool_decide_eq_true_2 _ Hstar). unfold defaultStatus.
    destruct (OptionsResponseStatusCode _ =? 0); reflexivity. }
  split; [exact Hall|].
  split; [intros origin w; now apply isOriginValid_allow_all|].
  intros g'. revert Hnew. unfold newCors.
  destruct (Validate config); [discriminate|].
  destruct (Validate (setAllowAllOrigins true config)); [discriminate|].
  assert (Hsame : promoteStar (setAllowAllOrigins true config)
                  = promoteStar config).
  { rewrite !promoteStar_decide. simpl AllowOrigins.
    now rewrite (bool_decide_eq_true_2 _ Hstar). }
  rewrite Hsame.
  destruct (parseWildcardRules _); [|discriminate].
  now intros [= <-] [= <-].
Qed.

(* ===================================================================== *)
(** * IP allow-list                                                      *)
(* ===================================================================== *)

(** The loop over the white list skips an entry with a slash that does
    not parse as a network. *)
Lemma whitelistLoop_skips
      {IP IPNet : Type} (ParseCIDR : string -> option IPNet)
      (IPNet_Contains : IPNet -> IP -> bool) (TrimSpace : string -> string)
      (ip : string) (ipAddr : IP) (bad : string)
      (before after : list string) :
  Strings.Contains bad "/" = true ->
  ParseCIDR bad = None ->
  IpWhite.whitelistLoop IP IPNet ParseCIDR IPNet_Contains TrimSpace
                        ip ipAddr (before ++ bad :: after)
  = IpWhite.whitelistLoop IP IPNet ParseCIDR IPNet_Contains TrimSpace
                          ip ipAddr (before ++ after).
Proof.
  intros Hslash Hbad.
  induction before as [|entry before IH]; simpl.
  - now rewrite Hslash, Hbad.
  - now rewrite IH.
Qed.

(** Claim C8.  A client address that [net.ParseIP] rejects is never
    white-listed, whatever the list holds, and the middleware built by
    [New] aborts the request of such a client with status 403. *)
Theorem isIPWhite_fails_closed
        {IP IPNet : Type} (ParseIP : string -> option IP)
        (ParseCIDR : string -> option IPNet)
        (IPNet_Contains : IPNet -> IP -> bool)
        (TrimSpace : string -> string) (ClientIP : Context -> string)
        (ip : string) :
  ParseIP ip = None ->
  (forall whitelist,
      IpWhite.isIPWhite IP IPNet ParseIP ParseCIDR IPNet_Contains TrimSpace
                        ip whitelist = false)
  /\ (forall (opts : list IpWhite.Option) (w : World),
         ClientIP (ctx w) = ip ->
         IpWhite.New IP IPNet ParseIP ParseCIDR IPNet_Contains TrimSpace
                     ClientIP opts w
         = Ok tt (mkWorld (aborted StatusForbidden (ctx w))
                          (log w ++ [EvAbortWithStatus 403
                                       (WriterHeader (ctx w))]))).
Proof.
  intros Hnil.
  assert (Hno : forall whitelist,
             IpWhite.isIPWhite IP IPNet ParseIP ParseCIDR IPNet_Contains
                               TrimSpace ip whitelist = false).
  { intros whitelist. unfold IpWhite.isIPWhite. now rewrite Hnil. }
  split; [exact Hno|].
  intros opts w Hip. unfold IpWhite.New. run.
  rewrite Hip, Hno. reflexivity.
Qed.

(** Claim C9.  A white-list entry that contains a slash and does not
    parse as a CIDR block is skipped: on its own it admits no address,
    and the verdict on a list that holds it anywhere is the verdict on
    the list without it.  [isIPWhite] is a total function to [bool], so
    no error comes out of it. *)
Theorem isIPWhite_skips_bad_cidr
        {IP IPNet : Type} (ParseIP : string -> option IP)
        (ParseCIDR : string -> option IPNet)
        (IPNet_Contains : IPNet -> IP -> bool)
        (TrimSpace : string -> string)
        (bad : string) :
  Strings.Contains bad "/" = true ->
  ParseCIDR bad = None ->
  (forall ip,
      IpWhite.isIPWhite IP IPNet ParseIP ParseCIDR IPNet_Contains TrimSpace
                        ip [bad] = false)
  /\ (forall ip before after,
         IpWhite.isIPWhite IP IPNet ParseIP ParseCIDR IPNet_Contains
                           TrimSpace ip (before ++ bad :: after)
         = IpWhite.isIPWhite IP IPNet ParseIP ParseCIDR IPNet_Contains
                             TrimSpace ip (before ++ after)).
Proof.
  intros Hslash Hbad. split.
  - intros ip. unfold IpWhite.isIPWhite.
    destruct (ParseIP ip); [|reflexivity]. simpl.
    now rewrite Hslash, Hbad.
  - intros ip before after. unfold IpWhite.isIPWhite.
    destruct (ParseIP ip); [|reflexivity].
    now apply whitelistLoop_skips.
Qed.

(* ===================================================================== *)
(** * Access log: the exclusion filter                                   *)
(* ===================================================================== *)

Lemma checkLabel_loop
      (MatchString : string -> string -> bool * option string)
      (label : string) (patterns : list string) :
  Logger.checkLabel MatchString label patterns
  = Logger.checkLabelLoop MatchString label patterns.
Proof.
  unfold Logger.checkLabel. destruct patterns as [|p patterns].
  - reflexivity.
  - replace (Z.of_nat (length (p :: patterns)) <=? 0) with false;
      [reflexivity|].
    symmetry. apply Z.leb_gt. simpl length. lia.
Qed.

Lemma checkLabelLoop_false
      (MatchString : string -> string -> bool * option string)
      (label : string) (patterns : list string) :
  Logger.checkLabelLoop MatchString label patterns = false
  <-> exists before pattern after,
      patterns = (before ++ pattern :: after)%list
      /\ Forall (sound_pattern MatchString label false) before
      /\ sound_pattern MatchString label true pattern.
Proof.
  unfold sound_pattern.
  induction patterns as [|p patterns IH]; simpl.
  - split; [discriminate|].
    intros (before & q & after & E & _). now destruct before.
  - destruct (String.eqb_spec p "") as [Hp|Hne].
    { split; [discriminate|].
      intros (before & q & after & E & Hb & Hq & _).
      destruct before as [|b before]; simpl in E; inversion E; subst.
      - congruence.
      - apply Forall_cons in Hb as [[Hb _] _]. congruence. }
    destruct (MatchString p label) as [matched [err|]] eqn:Em.
    { split; [discriminate|].
      intros (before & q & after & E & Hb & _ & Hq).
      destruct before as [|b before]; simpl in E; inversion E; subst.
      - congruence.
      - apply Forall_cons in Hb as [[_ Hb] _]. congruence. }
    destruct matched.
    + split; [intros _|reflexivity].
      now exists [], p, patterns.
    + rewrite IH. split.
      * intros (before & q & after & -> & Hb & Hq).
        exists (p :: before), q, after.
        split; [reflexivity|]. split; [|exact Hq].
        apply Forall_cons. split; [now split | exact Hb].
      * intros (before & q & after & E & Hb & Hq).
        destruct before as [|b before]; simpl in E; inversion E; subst.
        { destruct Hq as [_ Hq]. congruence. }
        apply Forall_cons in Hb as [_ Hb]. now exists before, q, after.
Qed.

(** Claim C10.  [checkLabel] answers [true] on an empty pattern list.
    On a non-empty list it looks at the first pattern: an empty pattern
    and a pattern that does not compile answer [true] at once, a pattern
    that matches the label answers [false] at once, and any other pattern
    hands over to the rest of the list, which answers [true] when it is
    exhausted.  Hence the answer is [false] only when a non-empty,
    compiling pattern matches the label and every pattern before it is
    non-empty, compiles and does not match: a bad pattern never
    suppresses logging. *)
Theorem checkLabel_scan
        (MatchString : string -> string -> bool * option string)
        (label : string) :
  Logger.checkLabel MatchString label [] = true
  /\ (forall pattern rest,
         Logger.checkLabel MatchString label (pattern :: rest)
         = if String.eqb pattern "" then true
           else match MatchString pattern label with
                | (_, Some _) => true
                | (true, None) => false
                | (false, None) => Logger.checkLabel MatchString label rest
                end)
  /\ (forall patterns,
         Logger.checkLabel MatchString label patterns = false
         <-> exists before pattern after,
             patterns = (before ++ pattern :: after)%list
             /\ Forall (sound_pattern MatchString label false) before
             /\ sound_pattern MatchString label true pattern).
Proof.
  split; [reflexivity|]. split.
  - intros pattern rest. rewrite !checkLabel_loop. simpl.
    destruct (String.eqb pattern ""); [reflexivity|].
    now destruct (MatchString pattern label) as [[|] [err|]].
  - intros patterns. rewrite checkLabel_loop. apply checkLabelLoop_false.
Qed.

(* ===================================================================== *)
(** * The middlewares on sample data                                     *)
(* ===================================================================== *)

Import Samples.

Example wildcard_accepts_subdomain :
  validateWildcardOrigin policy "https://api.example.com"
                         (plainRequest "GET")
  = Ok true (plainRequest "GET").
Proof. vm_compute. reflexivity. Qed.

Example wildcard_rejects_bare_domain :
  validateWildcardOrigin policy "https://example.com" (plainRequest "GET")
  = Ok false (plainRequest "GET").
Proof. vm_compute. reflexivity. Qed.

Example missing_rule_part_panics :
  validateWildcardOrigin brokenPolicy "https://api.example.com"
                         (plainRequest "GET")
  = Panic "index out of range" (plainRequest "GET").
Proof. vm_compute. reflexivity. Qed.

Example exact_entry_skips_broken_rule :
  isOriginValid brokenPolicy "https://example.com" (plainRequest "GET")
  = Ok true (plainRequest "GET").
Proof. vm_compute. reflexivity. Qed.

Example plain_predicate_accepts :
  isOriginValid policy "https://special.test"
                (request "GET" "https://special.test")
  = Ok true
       (mkWorld (ctx (request "GET" "https://special.test"))
                [EvCall "allowOriginFunc" "https://special.test"]).
Proof. vm_compute. reflexivity. Qed.

Example context_predicate_is_asked_last :
  isOriginValid policy "https://partner.test"
                (request "GET" "https://partner.test")
  = Ok true
       (mkWorld (ctx (request "GET" "https://partner.test"))
                [EvCall "allowOriginFunc" "https://partner.test";
                 EvCall "allowOriginWithContextFunc"
                        "https://partner.test"]).
Proof. vm_compute. reflexivity. Qed.

Example allow_all_does_not_echo :
  match applyCors openPolicy (request "GET" "https://anything.test") with
  | Ok _ w =>
      WriterHeader (ctx w) !! ACAO = Some ["*"]
      /\ List.filter sets_allow_origin (log w) = []
      /\ IsAborted (ctx w) = false
  | _ => False
  end.
Proof. vm_compute. repeat split. Qed.

Example rejected_request_stops_the_chain :
  handlersLoop 5 [applyCors policy; Context_Header "X-Handled" "yes"]
               (request "GET" "https://evil.test")
  = Ok tt (mkWorld (mkContext (Req (ctx (request "GET" "https://evil.test")))
                              {[ "Content-Type" := ["text/plain"] ]}
                              403 64)
                   [EvCall "allowOriginFunc" "https://evil.test";
                    EvCall "allowOriginWithContextFunc" "https://evil.test";
                    EvAbortWithStatus
                      403 {[ "Content-Type" := ["text/plain"] ]}]).
Proof. vm_compute. reflexivity. Qed.

Example accepted_request_reaches_the_handler :
  match handlersLoop 5 [applyCors policy; Context_Header "X-Handled" "yes"]
                     (request "GET" "https://example.com") with
  | Ok _ w =>
      WriterHeader (ctx w) !! "X-Handled" = Some ["yes"]
      /\ WriterHeader (ctx w) !! ACAO = Some ["https://example.com"]
      /\ WriterHeader (ctx w) !! "Access-Control-Expose-Headers"
         = Some ["X-Trace"]
  | _ => False
  end.
Proof. vm_compute. repeat split. Qed.

Example address_in_network_is_white :
  IpWhite.isIPWhite N (N * N) parseIPv4 parseCIDRv4 containsIPv4 trimSpaces
                    "10.1.2.3" ["192.168.0.0/16"; "10.0.0.0/8"] = true.
Proof. vm_compute. reflexivity. Qed.

Example padded_entry_is_trimmed :
  IpWhite.isIPWhite N (N * N) parseIPv4 parseCIDRv4 containsIPv4 trimSpaces
                    "172.16.0.9" [" 172.16.0.9 "] = true.
Proof. vm_compute. reflexivity. Qed.

Example stranger_is_not_white :
  IpWhite.isIPWhite N (N * N) parseIPv4 parseCIDRv4 containsIPv4 trimSpaces
                    "172.16.0.9" ["192.168.0.0/16"; "10.0.0.0/8"] = false.
Proof. vm_compute. reflexivity. Qed.

Example matching_pattern_excludes :
  Logger.checkLabel literalMatch "/healthz" ["/metrics"; "/health"] = false.
Proof. vm_compute. reflexivity. Qed.

Example broken_pattern_keeps_logging :
  Logger.checkLabel literalMatch "/healthz" ["/metrics("; "/health"] = true.
Proof. vm_compute. reflexivity. Qed.

Example empty_pattern_keeps_logging :
  Logger.checkLabel literalMatch "/healthz" [""; "/health"] = true.
Proof. vm_compute. reflexivity. Qed.

Example preflight_status_not_positive_is_ignored :
  match applyCors (policyWithStatus (-1))
                  (request "OPTIONS" "https://example.com") with
  | Ok _ w =>
      WriterStatus (ctx w) = 200
      /\ IsAborted (ctx w) = true
      /\ WriterHeader (ctx w) !! ACAO = Some ["https://example.com"]
  | _ => False
  end.
Proof. vm_compute. repeat split. Qed.

Example preflight_status_below_100_panics :
  match applyCors (policyWithStatus 99)
                  (request "OPTIONS" "https://example.com") with
  | Panic reason w =>
      reason = "invalid WriteHeader code"
      /\ WriterStatus (ctx w) = 99
      /\ IsAborted (ctx w) = false
      /\ WriterHeader (ctx w) !! ACAO = Some ["https://example.com"]
  | _ => False
  end.
Proof. vm_compute. repeat split. Qed.

(* ===================================================================== *)
(** * The properties on sample data                                      *)
(* ===================================================================== *)

Lemma isOriginValid_first_match_witness :
  two_part (wildcardOrigins policy)
  /\ some_rule_matches (wildcardOrigins policy) "https://api.example.com"
  /\ isOriginValid policy "https://api.example.com"
                   (request "GET" "https://api.example.com")
     = first_success (origin_checks policy "https://api.example.com" true)
                     (request "GET" "https://api.example.com").
Proof.
  assert (Hm : some_rule_matches (wildcardOrigins policy)
                                 "https://api.example.com").
  { apply some_rule_matchesb_spec. vm_compute. reflexivity. }
  split; [reflexivity|]. split; [exact Hm|].
  apply (isOriginValid_first_match
           policy "https://api.example.com"
           (request "GET" "https://api.example.com") true).
  - reflexivity.
  - split; [intros _; exact Hm | reflexivity].
Defined.


Lemma validateWildcardOrigin_matches_witness :
  two_part (wildcardOrigins policy)
  /\ exists found,
      validateWildcardOrigin policy "https://api.example.com"
                             (request "GET" "https://api.example.com")
      = Ok found (request "GET" "https://api.example.com")
      /\ (found = true
          <-> some_rule_matches (wildcardOrigins policy)
                                "https://api.example.com").
Proof.
  split; [reflexivity|].
  destruct (validateWildcardOrigin_matches
              policy "https://api.example.com"
              (request "GET" "https://api.example.com") eq_refl)
    as [_ (found & Hrun & Htrue & _)].
  exists found. split; assumption.
Defined.

Lemma applyCors_rejects_with_403_witness :
  exists w',
    applyCors policy (request "GET" "https://evil.test") = Ok tt w'
    /\ WriterStatus (ctx w') = 403
    /\ IsAborted (ctx w') = true
    /\ WriterHeader (ctx w')
       = WriterHeader (ctx (request "GET" "https://evil.test")).
Proof.
  assert (Hc : classify (ctx (request "GET" "https://evil.test"))
               = CrossOrigin) by (vm_compute; reflexivity).
  assert (Ho : "https://evil.test"
               = requestOrigin (ctx (request "GET" "https://evil.test")))
    by (vm_compute; reflexivity).
  assert (Hex : "https://evil.test" ∉ allowOrigins policy).
  { intros Hin. apply list_elem_of_In in Hin.
    destruct Hin as [H|[]]. discriminate H. }
  assert (Hwild : ~ some_rule_matches (wildcardOrigins policy)
                    "https://evil.test").
  { intros Hm. apply some_rule_matchesb_spec in Hm. discriminate Hm. }
  assert (Hf : forall f, allowOriginFunc policy = Some f ->
                         f "https://evil.test" = false)
    by (intros f [= <-]; reflexivity).
  assert (Hh : forall f, allowOriginWithContextFunc policy = Some f ->
                 f (ctx (request "GET" "https://evil.test"))
                   "https://evil.test" = false)
    by (intros f [= <-]; reflexivity).
  destruct (applyCors_rejects_with_403
              policy (request "GET" "https://evil.test")
              "https://evil.test" Hc Ho eq_refl Hex eq_refl Hwild Hf Hh)
    as (Hrun & _ & Hhdr & Hst & Hab & _).
  eexists. split; [exact Hrun|]. split; [exact Hst|].
  split; [exact Hab | exact Hhdr].
Defined.

Lemma applyCors_echoes_origin_witness :
  exists w2,
    applyCors policy (request "GET" "https://example.com") = Ok tt w2
    /\ WriterHeader (ctx w2) !! ACAO = Some ["https://example.com"].
Proof.
  assert (Hc : classify (ctx (request "GET" "https://example.com"))
               = CrossOrigin) by (vm_compute; reflexivity).
  assert (Ho : "https://example.com"
               = requestOrigin (ctx (request "GET" "https://example.com")))
    by (vm_compute; reflexivity).
  assert (Hv : isOriginValid policy "https://example.com"
                 (request "GET" "https://example.com")
               = Ok true (request "GET" "https://example.com"))
    by (vm_compute; reflexivity).
  destruct (applyCors_echoes_origin
              policy (request "GET" "https://example.com")
              (request "GET" "https://example.com")
              "https://example.com" Hc Ho Hv)
    as (w2 & events & _ & Hrun & _ & Hecho & _).
  exists w2. split; [apply Hrun; left; discriminate|].
  apply Hecho. reflexivity.
Defined.


Lemma applyCors_passes_through_witness :
  Header (Req (ctx (plainRequest "GET"))) !! "Origin" = None
  /\ applyCors policy (plainRequest "GET") = Ok tt (plainRequest "GET").
Proof.
  assert (Habsent : Header (Req (ctx (plainRequest "GET"))) !! "Origin"
                    = None) by (vm_compute; reflexivity).
  split; [exact Habsent|].
  apply (applyCors_passes_through policy (plainRequest "GET")).
  left. exact Habsent.
Defined.

Lemma newCors_star_allows_all_witness :
  exists g,
    newCors anyValidate sameOrigins noHeaders noHeaders noRules starConfig
    = Returns g
    /\ allowAllOrigins g = true
    /\ isOriginValid g "https://anything.test"
                     (request "GET" "https://anything.test")
       = Ok true (request "GET" "https://anything.test").
Proof.
  assert (Hstar : "*" ∈ AllowOrigins starConfig).
  { apply list_elem_of_In. right. left. reflexivity. }
  eexists. split; [reflexivity|].
  destruct (newCors_star_allows_all
              anyValidate sameOrigins noHeaders noHeaders noRules
              starConfig _ Hstar eq_refl) as (Hall & Hany & _).
  split; [exact Hall | apply Hany].
Defined.

Lemma isIPWhite_fails_closed_witness :
  parseIPv4 "not-an-address" = None
  /\ IpWhite.isIPWhite N (N * N) parseIPv4 parseCIDRv4 containsIPv4
                       trimSpaces "not-an-address" ["not-an-address"]
     = false
  /\ IpWhite.New N (N * N) parseIPv4 parseCIDRv4 containsIPv4 trimSpaces
                 realIP [IpWhite.WithIpWhite ["not-an-address"]]
                 (visitor "not-an-address")
     = Ok tt (mkWorld (aborted StatusForbidden
                               (ctx (visitor "not-an-address")))
                      [EvAbortWithStatus 403 ∅]).
Proof.
  assert (Hnil : parseIPv4 "not-an-address" = None)
    by (vm_compute; reflexivity).
  destruct (isIPWhite_fails_closed
              parseIPv4 parseCIDRv4 containsIPv4 trimSpaces realIP
              "not-an-address" Hnil) as [Hno Habort].
  split; [exact Hnil|]. split; [apply Hno|].
  apply (Habort [IpWhite.WithIpWhite ["not-an-address"]]
                (visitor "not-an-address")).
  vm_compute. reflexivity.
Defined.

Lemma isIPWhite_skips_bad_cidr_witness :
  Strings.Contains "10.0.0.0/99" "/" = true
  /\ parseCIDRv4 "10.0.0.0/99" = None
  /\ IpWhite.isIPWhite N (N * N) parseIPv4 parseCIDRv4 containsIPv4
                       trimSpaces "10.1.2.3" ["10.0.0.0/99"; "10.0.0.0/8"]
     = IpWhite.isIPWhite N (N * N) parseIPv4 parseCIDRv4 containsIPv4
                         trimSpaces "10.1.2.3" ["10.0.0.0/8"].
Proof.
  assert (Hslash : Strings.Contains "10.0.0.0/99" "/" = true)
    by (vm_compute; reflexivity).
  assert (Hbad : parseCIDRv4 "10.0.0.0/99" = None)
    by (vm_compute; reflexivity).
  destruct (isIPWhite_skips_bad_cidr
              parseIPv4 parseCIDRv4 containsIPv4 trimSpaces
              "10.0.0.0/99" Hslash Hbad) as [_ Hskip].
  split; [exact Hslash|]. split; [exact Hbad|].
  apply (Hskip "10.1.2.3" [] ["10.0.0.0/8"]).
Defined.

(* ===================================================================== *)
(** * CORS: further properties of the code                               *)
(* ===================================================================== *)

Section MoreCors.

Lemma string_app_assoc (a b c : string) :
  (a +:+ b) +:+ c = a +:+ (b +:+ c).
Proof.
  induction a as [|x a IH]; [reflexivity|].
  change (String x ((a +:+ b) +:+ c) = String x (a +:+ (b +:+ c))).
  now rewrite IH.
Qed.

Lemma string_app_inv_head (p a b : string) : p +:+ a = p +:+ b -> a = b.
Proof.
  induction p as [|x p IH]; [trivial|].
  change (String x (p +:+ a) = String x (p +:+ b) -> a = b).
  intros [= H]. now apply IH.
Qed.

(** Two strings that end the same string: the shorter ends the longer. *)
Lemma suffix_of_suffix (front1 s1 front2 s2 : string) :
  front1 +:+ s1 = front2 +:+ s2 ->
  (String.length s2 <= String.length s1)%nat ->
  exists m, s1 = m +:+ s2.
Proof.
  revert front2. induction front1 as [|x front1 IH]; intros front2 E Hlen.
  - exists front2. exact E.
  - destruct front2 as [|y front2].
    + change (String x front1 +:+ s1 = s2) in E. subst s2.
      rewrite string_length_app in Hlen. simpl in Hlen. lia.
    + change (String x (front1 +:+ s1) = String y (front2 +:+ s2)) in E.
      injection E as _ E. now apply (IH front2).
Qed.

Lemma isOriginValid_returns (g : gCors) (origin : string) (w : World) :
  two_part (wildcardOrigins g) ->
  exists valid w1, isOriginValid g origin w = Ok valid w1.
Proof.
  intros Hwf. unfold isOriginValid, validateOrigin.
  rewrite wildcard_guard. unfold validateWildcardOrigin. run.
  destruct (allowAllOrigins g); simpl.
  { destruct (allowOriginWithContextFunc g); eauto. }
  destruct (existsb _ (allowOrigins g)); simpl.
  { destruct (allowOriginWithContextFunc g); eauto. }
  rewrite (wildcardLoop_two_part _ _ _ Hwf).
  destruct (some_rule_matchesb _ _); simpl.
  { destruct (allowOriginWithContextFunc g); eauto. }
  destruct (allowOriginFunc g) as [f|]; simpl.
  - destruct (f origin); simpl;
      destruct (allowOriginWithContextFunc g) as [h|]; simpl; eauto.
  - destruct (allowOriginWithContextFunc g) as [h|]; simpl; eauto.
Qed.

Lemma applyCors_not_cross (g : gCors) (w : World) :
  classify (ctx w) <> CrossOrigin -> applyCors g w = Ok tt w.
Proof.
  unfold classify, applyCors. run. fold (requestOrigin (ctx w)).
  destruct (String.eqb_spec (requestOrigin (ctx w)) "") as [->|_];
    [reflexivity|].
  destruct (Z.of_nat (String.length (requestOrigin (ctx w))) =? 0);
    [reflexivity|].
  destruct (String.eqb (requestOrigin (ctx w)) _); [reflexivity|].
  destruct (String.eqb (requestOrigin (ctx w)) _); [reflexivity|].
  congruence.
Qed.

Lemma applyCors_cross_panic (g : gCors) (w w1 : World) (reason : string) :
  classify (ctx w) = CrossOrigin ->
  isOriginValid g (requestOrigin (ctx w)) w = Panic reason w1 ->
  applyCors g w = Panic reason w1.
Proof.
  intros Hc Hv. destruct (cross_origin_guards _ Hc) as [G1 G2].
  unfold applyCors. run. fold (requestOrigin (ctx w)).
  now rewrite G1, G2, Hv.
Qed.

Lemma applyCors_cross_fuel (g : gCors) (w : World) :
  classify (ctx w) = CrossOrigin ->
  isOriginValid g (requestOrigin (ctx w)) w = OutOfFuel ->
  applyCors g w = OutOfFuel.
Proof.
  intros Hc Hv. destruct (cross_origin_guards _ Hc) as [G1 G2].
  unfold applyCors. run. fold (requestOrigin (ctx w)).
  now rewrite G1, G2, Hv.
Qed.

End MoreCors.

(** Property X1.  On a policy whose wildcard rules all have their two
    parts and whose preflight status is one [net/http] accepts (100 to
    999), [applyCors] returns on every request: it does not panic. *)
Theorem applyCors_returns (g : gCors) (w : World) :
  two_part (wildcardOrigins g) ->
  valid_status (optionsResponseStatusCode g) ->
  exists w', applyCors g w = Ok tt w'.
Proof.
  intros Hwf Hvalid.
  destruct (classify (ctx w)) eqn:Hc;
    try (exists w; apply applyCors_not_cross; congruence).
  destruct (isOriginValid_returns g (requestOrigin (ctx w)) w Hwf)
    as ([|] & w1 & Hv); eexists.
  - exact (applyCors_accepted g w w1 Hc Hv (fun _ => Hvalid)).
  - exact (applyCors_rejected g w w1 Hc Hv).
Qed.

(** Property X2.  Whatever [applyCors] decides, it leaves the request as
    it was, keeps every event already in the log, and changes no
    response header other than [Access-Control-Allow-Origin] and the
    keys of the precomputed header set of the request's branch. *)
Theorem applyCors_frame (g : gCors) (w w' : World) :
  applyCors g w = Ok tt w' ->
  Req (ctx w') = Req (ctx w)
  /\ (exists events, log w' = (log w ++ events)%list)
  /\ forall key,
      key <> ACAO ->
      branchHeaders g (ctx w) !! key = None ->
      WriterHeader (ctx w') !! key = WriterHeader (ctx w) !! key.
Proof.
  intros Hrun.
  destruct (classify (ctx w)) eqn:Hc;
    try (rewrite applyCors_not_cross in Hrun by congruence;
         injection Hrun as <-;
         split; [reflexivity|]; split; [|reflexivity];
         exists []; now rewrite app_nil_r).
  destruct (isOriginValid g (requestOrigin (ctx w)) w)
    as [[|] w1| |] eqn:Hv.
  - destruct (isOriginValid_frame _ _ _ _ _ Hv) as (_ & calls & Hlog & _).
    rewrite (applyCors_accepted_deferred g w w1 Hc Hv) in Hrun.
    assert (Hend :
              Req (ctx w') = Req (ctx w)
              /\ WriterHeader (ctx w') = acceptedHeaders g (ctx w)
              /\ exists events',
                  log w' = (log (preparedWorld g (ctx w) (log w1))
                            ++ events')%list).
    { destruct (String.eqb (Method (Req (ctx w))) "OPTIONS").
      - destruct (abort_frame (optionsResponseStatusCode g)
                              (preparedWorld g (ctx w) (log w1)))
          as (w2 & Hres & Hreq & Hhdr & events' & Hlog' & _).
        destruct Hres as [Hres|Hres]; rewrite Hres in Hrun;
          [|discriminate Hrun].
        injection Hrun as <-.
        split; [exact Hreq|]. split; [exact Hhdr|]. now exists events'.
      - injection Hrun as <-.
        split; [reflexivity|]. split; [reflexivity|].
        exists []. now rewrite app_nil_r. }
    destruct Hend as (Hreq & Hhdr & events' & Hlog').
    split; [exact Hreq|].
    split.
    { eexists. rewrite Hlog'. unfold preparedWorld. cbn [log].
      rewrite Hlog, <- !app_assoc. reflexivity. }
    intros key Hkey Hbranch.
    rewrite Hhdr. unfold acceptedHeaders.
    destruct (allowAllOrigins g).
    + now rewrite lookup_union_r.
    + rewrite lookup_insert_ne by congruence. now rewrite lookup_union_r.
  - destruct (isOriginValid_frame _ _ _ _ _ Hv) as (_ & calls & Hlog & _).
    rewrite (applyCors_rejected g w w1 Hc Hv) in Hrun.
    injection Hrun as <-. cbn [ctx log].
    split; [reflexivity|]. split; [|reflexivity].
    eexists. rewrite Hlog, <- app_assoc. reflexivity.
  - rewrite (applyCors_cross_panic g w _ _ Hc Hv) in Hrun. discriminate.
  - rewrite (applyCors_cross_fuel g w Hc Hv) in Hrun. discriminate.
Qed.

(** Property X3.  An accepted cross-origin request whose method is not
    [OPTIONS] is not aborted: status and chain position are as before,
    every entry of the normal header set is on the response (the entry
    for [Access-Control-Allow-Origin] giving way to the echo when the
    policy does not allow all origins), and the loop of [Next] goes on
    with the handler after the middleware. *)
Theorem applyCors_normal_continues
        (g : gCors) (w w1 : World) (origin : string) :
  classify (ctx w) = CrossOrigin ->
  origin = requestOrigin (ctx w) ->
  Method (Req (ctx w)) <> "OPTIONS" ->
  isOriginValid g origin w = Ok true w1 ->
  exists w2,
    applyCors g w = Ok tt w2
    /\ index (ctx w2) = index (ctx w)
    /\ WriterStatus (ctx w2) = WriterStatus (ctx w)
    /\ (forall key value,
           normalHeaders g !! key = Some value ->
           WriterHeader (ctx w2) !! key
           = Some (if allowAllOrigins g || negb (String.eqb key ACAO)
                   then value else [origin]))
    /\ forall (handlers : list HandlerFunc) (fuel : nat),
        0 <= index (ctx w) ->
        Z.of_nat (length handlers) < abortIndex ->
        handlers !! Z.to_nat (index (ctx w)) = Some (applyCors g) ->
        handlersLoop (S fuel) handlers w
        = handlersLoop fuel handlers (advance w2).
Proof.
  intros Hc -> Hm Hv.
  pose proof (applyCors_accepted g w w1 Hc Hv
                (fun E => False_ind _ (Hm E))) as Hrun.
  assert (Hopt : String.eqb (Method (Req (ctx w))) "OPTIONS" = false)
    by now apply String.eqb_neq.
  unfold acceptedContext, acceptedEvents, acceptedHeaders, branchHeaders
    in *.
  rewrite Hopt in *.
  eexists. split; [exact Hrun|]. cbn [ctx log].
  split; [reflexivity|]. split; [reflexivity|].
  split.
  { intros key value Hkey. simpl.
    destruct (allowAllOrigins g); simpl.
    - now rewrite (lookup_union_Some_l _ _ _ _ Hkey).
    - destruct (String.eqb_spec key ACAO) as [->|Hne]; simpl.
      + apply lookup_insert_eq.
      + rewrite lookup_insert_ne by congruence.
        now rewrite (lookup_union_Some_l _ _ _ _ Hkey). }
  intros handlers fuel H0 Hlen Hh.
  pose proof (lookup_lt_Some _ _ _ Hh) as Hlt. unfold abortIndex in Hlen.
  cbn [handlersLoop].
  unfold mbind, M_bind, mret, M_ret, get_ctx, put_ctx, panic.
  cbn beta iota.
  rewrite (wrap8_small (Z.of_nat (length handlers))) by lia.
  replace (index (ctx w) <? Z.of_nat (length handlers)) with true
    by (symmetry; apply Z.ltb_lt; lia).
  replace (index (ctx w) <? 0) with false
    by (symmetry; apply Z.ltb_ge; lia).
  rewrite Hh, Hrun. reflexivity.
Qed.

(** Property X4.  [handlePreflight] and [handleNormal] replace: after
    the call a key of the precomputed set holds the precomputed values,
    whatever the response held under it, and every other key holds what
    it held before. *)
Theorem handle_replaces (g : gCors) (w : World) :
  exists wp wn,
    handlePreflight g w = Ok tt wp
    /\ handleNormal g w = Ok tt wn
    /\ forall key,
        WriterHeader (ctx wp) !! key
        = match preflightHeaders g !! key with
          | Some values => Some values
          | None => WriterHeader (ctx w) !! key
          end
        /\ WriterHeader (ctx wn) !! key
           = match normalHeaders g !! key with
             | Some values => Some values
             | None => WriterHeader (ctx w) !! key
             end.
Proof.
  unfold handlePreflight, handleNormal, assignHeaders. run.
  do 2 eexists. split; [reflexivity|]. split; [reflexivity|].
  intros key. simpl. rewrite !assign_is_union, !lookup_union.
  split.
  - now destruct (preflightHeaders g !! key), (WriterHeader (ctx w) !! key).
  - now destruct (normalHeaders g !! key), (WriterHeader (ctx w) !! key).
Qed.

(** Property X5.  The policy [newCors] returns allows all origins
    exactly when the configuration's flag is set or some entry of
    [AllowOrigins] is ["*"]; the predicates, the credentials flag and
    the origin list (normalized) are the configuration's own. *)
Theorem newCors_flag
        (Validate : Config -> option string)
        (normalize : list string -> list string)
        (generateNormalHeaders generatePreflightHeaders
           : Config -> HeaderMap)
        (parseWildcardRules : Config -> Outcome (list (list string)))
        (config : Config) (g : gCors) :
  newCors Validate normalize generateNormalHeaders generatePreflightHeaders
          parseWildcardRules config = Returns g ->
  allowAllOrigins g
  = AllowAllOrigins config || bool_decide ("*" ∈ AllowOrigins config)
  /\ allowOrigins g = normalize (AllowOrigins config)
  /\ allowCredentials g = AllowCredentials config
  /\ allowOriginFunc g = AllowOriginFunc config
  /\ allowOriginWithContextFunc g = AllowOriginWithContextFunc config.
Proof.
  unfold newCors. destruct (Validate config); [discriminate|].
  destruct (parseWildcardRules _); [|discriminate].
  intros [= <-]. cbn [allowAllOrigins allowOrigins allowCredentials
                      allowOriginFunc allowOriginWithContextFunc].
  unfold defaultStatus. rewrite promoteStar_decide.
  destruct (bool_decide ("*" ∈ AllowOrigins config));
    destruct (AllowAllOrigins config) eqn:E;
    destruct (OptionsResponseStatusCode _ =? 0); simpl;
    rewrite ?E; repeat split; reflexivity.
Qed.


(** Property X7.  A two-part rule [(prefix, suffix)] matches every origin
    made of the prefix, any text, and the suffix.  Conversely, when
    neither part is ["*"], an origin it matches that is at least as long
    as the two parts together is of that form; shorter origins match
    only by letting the prefix and the suffix overlap. *)
Theorem wildcard_rule_fills_the_star (prefix suffix : string) (w : World) :
  (forall middle,
      wildcardRuleMatches (prefix +:+ middle +:+ suffix) [prefix; suffix] w
      = Ok true w)
  /\ (forall origin,
         prefix <> "*" -> suffix <> "*" ->
         wildcardRuleMatches origin [prefix; suffix] w = Ok true w ->
         (String.length prefix + String.length suffix
          <= String.length origin)%nat ->
         exists middle, origin = prefix +:+ middle +:+ suffix).
Proof.
  split.
  - intros middle. rewrite wildcardRuleMatches_two. f_equal.
    apply rule_matchesb_spec. right. right. split.
    + now exists (middle +:+ suffix).
    + exists (prefix +:+ middle). symmetry. apply string_app_assoc.
  - intros origin Hp Hs Hm Hlen. rewrite wildcardRuleMatches_two in Hm.
    injection Hm as Hm. apply rule_matchesb_spec in Hm.
    destruct Hm as [[E _]|[[E _]|[[rest Hrest] [front Hfront]]]];
      [contradiction | contradiction |].
    assert (Hlen' : (String.length suffix <= String.length rest)%nat).
    { rewrite Hrest, string_length_app in Hlen. lia. }
    destruct (suffix_of_suffix prefix rest front suffix) as [middle Hmid];
      [congruence | exact Hlen' |].
    exists middle. now rewrite Hrest, Hmid.
Qed.

(* ===================================================================== *)
(** * IP allow-list: further properties of the code                      *)
(* ===================================================================== *)

Lemma whitelistLoop_true
      {IP IPNet : Type} (ParseCIDR : string -> option IPNet)
      (IPNet_Contains : IPNet -> IP -> bool) (TrimSpace : string -> string)
      (ip : string) (ipAddr : IP) (whitelist : list string) :
  IpWhite.whitelistLoop IP IPNet ParseCIDR IPNet_Contains TrimSpace
                        ip ipAddr whitelist = true
  <-> exists entry,
      entry ∈ whitelist
      /\ ((Strings.Contains entry "/" = true
           /\ exists ipNet, ParseCIDR entry = Some ipNet
                            /\ IPNet_Contains ipNet ipAddr = true)
          \/ (Strings.Contains entry "/" = false /\ TrimSpace entry = ip)).
Proof.
  induction whitelist as [|e whitelist IH]; simpl.
  - split; [discriminate|]. intros (entry & Hin & _).
    now apply not_elem_of_nil in Hin.
  - assert (Hlater :
              (exists entry,
                  entry ∈ whitelist
                  /\ ((Strings.Contains entry "/" = true
                       /\ exists ipNet, ParseCIDR entry = Some ipNet
                                        /\ IPNet_Contains ipNet ipAddr = true)
                      \/ (Strings.Contains entry "/" = false
                          /\ TrimSpace entry = ip))) ->
              exists entry,
                entry ∈ e :: whitelist
                /\ ((Strings.Contains entry "/" = true
                     /\ exists ipNet, ParseCIDR entry = Some ipNet
                                      /\ IPNet_Contains ipNet ipAddr = true)
                    \/ (Strings.Contains entry "/" = false
                        /\ TrimSpace entry = ip))).
    { intros (entry & Hin & H). exists entry.
      split; [now apply list_elem_of_further | exact H]. }
    destruct (Strings.Contains e "/") eqn:Hslash.
    + destruct (ParseCIDR e) as [ipNet|] eqn:Hnet.
      * destruct (IPNet_Contains ipNet ipAddr) eqn:Hc.
        { split; [intros _|reflexivity]. exists e.
          split; [apply list_elem_of_here|]. left. eauto. }
        rewrite IH. split; [exact Hlater|].
        intros (entry & Hin & H). apply elem_of_cons in Hin as [->|Hin];
          [|now exists entry].
        destruct H as [(_ & n & Hn & Hcn)|(Hs & _)]; congruence.
      * rewrite IH. split; [exact Hlater|].
        intros (entry & Hin & H). apply elem_of_cons in Hin as [->|Hin];
          [|now exists entry].
        destruct H as [(_ & n & Hn & Hcn)|(Hs & _)]; congruence.
    + destruct (String.eqb_spec (TrimSpace e) ip) as [E|Hne].
      * split; [intros _|reflexivity]. exists e.
        split; [apply list_elem_of_here|]. right. now split.
      * rewrite IH. split; [exact Hlater|].
        intros (entry & Hin & H). apply elem_of_cons in Hin as [->|Hin];
          [|now exists entry].
        destruct H as [(Hs & _)|(_ & E)]; congruence.
Qed.

(** Property X8.  A client is white-listed exactly when some entry of
    the list admits it: the client's text parses as an address, and the
    entry either has a slash, parses as a network and the network
    contains the address, or has no slash and, trimmed, equals the
    client's text. *)
Theorem isIPWhite_iff_admitted
        {IP IPNet : Type} (ParseIP : string -> option IP)
        (ParseCIDR : string -> option IPNet)
        (IPNet_Contains : IPNet -> IP -> bool)
        (TrimSpace : string -> string)
        (ip : string) (whitelist : list string) :
  IpWhite.isIPWhite IP IPNet ParseIP ParseCIDR IPNet_Contains TrimSpace
                    ip whitelist = true
  <-> exists entry,
      entry ∈ whitelist
      /\ IpWhiteSpec.admits IP IPNet ParseIP ParseCIDR IPNet_Contains
                            TrimSpace ip entry.
Proof.
  unfold IpWhite.isIPWhite, IpWhiteSpec.admits.
  destruct (ParseIP ip) as [ipAddr|].
  - rewrite whitelistLoop_true. split.
    + intros (entry & Hin & H). exists entry. split; [exact Hin|].
      now exists ipAddr.
    + intros (entry & Hin & a & [= <-] & H). now exists entry.
  - split; [discriminate|]. intros (entry & _ & a & Ha & _). discriminate.
Qed.

(** Property X9.  The verdict depends on the set of entries only: two
    white lists with the same entries, in any order and with any
    repetition, admit the same clients. *)
Theorem isIPWhite_same_entries
        {IP IPNet : Type} (ParseIP : string -> option IP)
        (ParseCIDR : string -> option IPNet)
        (IPNet_Contains : IPNet -> IP -> bool)
        (TrimSpace : string -> string)
        (ip : string) (whitelist whitelist' : list string) :
  (forall entry, entry ∈ whitelist <-> entry ∈ whitelist') ->
  IpWhite.isIPWhite IP IPNet ParseIP ParseCIDR IPNet_Contains TrimSpace
                    ip whitelist
  = IpWhite.isIPWhite IP IPNet ParseIP ParseCIDR IPNet_Contains TrimSpace
                      ip whitelist'.
Proof.
  intros Hsame. unfold IpWhite.isIPWhite.
  destruct (ParseIP ip) as [ipAddr|]; [|reflexivity].
  pose proof (whitelistLoop_true ParseCIDR IPNet_Contains TrimSpace
                ip ipAddr whitelist) as H1.
  pose proof (whitelistLoop_true ParseCIDR IPNet_Contains TrimSpace
                ip ipAddr whitelist') as H2.
  destruct (IpWhite.whitelistLoop _ _ _ _ _ ip ipAddr whitelist),
           (IpWhite.whitelistLoop _ _ _ _ _ ip ipAddr whitelist');
    try reflexivity.
  - destruct (proj1 H1 eq_refl) as (entry & Hin & Had).
    assert (Hf : false = true); [|discriminate Hf].
    apply H2. exists entry. split; [now apply Hsame | exact Had].
  - destruct (proj1 H2 eq_refl) as (entry & Hin & Had).
    assert (Hf : false = true); [|discriminate Hf].
    apply H1. exists entry. split; [now apply Hsame | exact Had].
Qed.

(** Property X10.  A middleware whose options leave the white list
    empty, in particular one built without options, aborts every
    request with status 403. *)
Theorem New_empty_list_rejects_all
        {IP IPNet : Type} (ParseIP : string -> option IP)
        (ParseCIDR : string -> option IPNet)
        (IPNet_Contains : IPNet -> IP -> bool)
        (TrimSpace : string -> string) (ClientIP : Context -> string)
        (opts : list IpWhite.Option) (w : World) :
  IpWhite.WhiteList
    (fold_left (fun cfg opt => opt cfg) opts (IpWhite.mkOption [])) = [] ->
  IpWhite.New IP IPNet ParseIP ParseCIDR IPNet_Contains TrimSpace
              ClientIP opts w
  = Ok tt (mkWorld (aborted StatusForbidden (ctx w))
                   (log w ++ [EvAbortWithStatus 403
                                (WriterHeader (ctx w))])).
Proof.
  intros Hempty. unfold IpWhite.New. run. rewrite Hempty.
  unfold IpWhite.isIPWhite.
  now destruct (ParseIP (ClientIP (ctx w))).
Qed.

(** Property X11.  The white list in force is the one of the last
    [WithIpWhite] option, whatever options come before it: a client it
    admits passes through with the context and the log untouched, any
    other client is aborted with status 403. *)
Theorem New_last_list_decides
        {IP IPNet : Type} (ParseIP : string -> option IP)
        (ParseCIDR : string -> option IPNet)
        (IPNet_Contains : IPNet -> IP -> bool)
        (TrimSpace : string -> string) (ClientIP : Context -> string)
        (opts : list IpWhite.Option) (ips : list string) (w : World) :
  IpWhite.New IP IPNet ParseIP ParseCIDR IPNet_Contains TrimSpace
              ClientIP (opts ++ [IpWhite.WithIpWhite ips]) w
  = if IpWhite.isIPWhite IP IPNet ParseIP ParseCIDR IPNet_Contains
                         TrimSpace (ClientIP (ctx w)) ips
    then Ok tt w
    else Ok tt (mkWorld (aborted StatusForbidden (ctx w))
                        (log w ++ [EvAbortWithStatus 403
                                     (WriterHeader (ctx w))])).
Proof.
  unfold IpWhite.New. rewrite fold_left_app. simpl fold_left.
  unfold IpWhite.WithIpWhite. run.
  now destruct (IpWhite.isIPWhite _ _ _ _ _ _ _ ips).
Qed.

(** Property X12.  An entry without a slash is compared as text, not as
    an address: of two different spellings of one address, the list
    holding the first admits the first and not the second. *)
Theorem isIPWhite_compares_text
        {IP IPNet : Type} (ParseIP : string -> option IP)
        (ParseCIDR : string -> option IPNet)
        (IPNet_Contains : IPNet -> IP -> bool)
        (TrimSpace : string -> string)
        (ip1 ip2 : string) (ipAddr : IP) :
  ParseIP ip1 = Some ipAddr ->
  ParseIP ip2 = Some ipAddr ->
  ip1 <> ip2 ->
  Strings.Contains ip1 "/" = false ->
  TrimSpace ip1 = ip1 ->
  IpWhite.isIPWhite IP IPNet ParseIP ParseCIDR IPNet_Contains TrimSpace
                    ip1 [ip1] = true
  /\ IpWhite.isIPWhite IP IPNet ParseIP ParseCIDR IPNet_Contains TrimSpace
                       ip2 [ip1] = false.
Proof.
  intros H1 H2 Hne Hslash Htrim. unfold IpWhite.isIPWhite.
  rewrite H1, H2. simpl. rewrite Hslash, Htrim, String.eqb_refl.
  split; [reflexivity|].
  now destruct (String.eqb_spec ip1 ip2).
Qed.

(* ===================================================================== *)
(** * Access log: further properties of the code                         *)
(* ===================================================================== *)

(** Property X13.  On a list whose patterns are all non-empty and all
    compile, [checkLabel] excludes the label exactly when some pattern
    of the list matches it; the order of the patterns plays no part. *)
Theorem checkLabel_sound_list
        (MatchString : string -> string -> bool * option string)
        (label : string) (patterns : list string) :
  Forall (fun pattern =>
            pattern <> ""
            /\ exists matched, MatchString pattern label = (matched, None))
         patterns ->
  Logger.checkLabel MatchString label patterns = false
  <-> exists pattern,
      pattern ∈ patterns /\ MatchString pattern label = (true, None).
Proof.
  intros Hsound. rewrite checkLabel_loop.
  induction Hsound as [|p patterns [Hne [matched Hm]] Hsound IH]; simpl.
  - split; [discriminate|]. intros (p & Hin & _).
    now apply not_elem_of_nil in Hin.
  - destruct (String.eqb_spec p "") as [E|_]; [contradiction|].
    rewrite Hm. destruct matched.
    + split; [intros _|reflexivity]. exists p.
      split; [apply list_elem_of_here | exact Hm].
    + rewrite IH. split.
      * intros (q & Hin & Hq). exists q.
        split; [now apply list_elem_of_further | exact Hq].
      * intros (q & Hin & Hq). apply elem_of_cons in Hin as [->|Hin];
          [congruence | now exists q].
Qed.

(** Property X14.  An empty pattern and a pattern that does not compile
    cut the list: the patterns after it are never tried, and the answer
    is the one of the patterns before it. *)
Theorem checkLabel_cut
        (MatchString : string -> string -> bool * option string)
        (label bad : string) (before after : list string) :
  bad = "" \/ (exists matched err,
                  MatchString bad label = (matched, Some err)) ->
  Logger.checkLabel MatchString label (before ++ bad :: after)
  = Logger.checkLabel MatchString label before.
Proof.
  intros Hbad. rewrite !checkLabel_loop.
  induction before as [|p before IH]; simpl.
  - destruct Hbad as [->|(matched & err & ->)]; [reflexivity|].
    now destruct (String.eqb bad "").
  - destruct (String.eqb p ""); [reflexivity|].
    destruct (MatchString p label) as [[|] [err|]]; try reflexivity.
    exact IH.
Qed.

Section LoggerFacts.

Context {Time KeyMap ILogger ILoggerEntry WriterLogFn WriterErrorFn : Type}.
Context (WithField : ILogger -> ILoggerEntry).
Context (urlPath : Context -> string).
Context (defaultLogFormatter
           : Logger.LogFormatterParams Time KeyMap -> string).

Local Abbreviation config :=
  (Logger.config Time KeyMap ILoggerEntry WriterLogFn WriterErrorFn).
Local Abbreviation Setting :=
  (LoggerSettings.Setting Time KeyMap ILogger WriterLogFn WriterErrorFn).
Local Abbreviation options :=
  (map (LoggerSettings.toOption Time KeyMap ILogger ILoggerEntry
                                WriterLogFn WriterErrorFn WithField)).
Local Abbreviation applyOptions :=
  (Logger.applyOptions Time KeyMap ILoggerEntry WriterLogFn WriterErrorFn).
Local Abbreviation ensureFormatter :=
  (Logger.ensureFormatter Time KeyMap ILoggerEntry WriterLogFn
                          WriterErrorFn defaultLogFormatter).
Local Abbreviation New :=
  (Logger.New Time KeyMap ILoggerEntry WriterLogFn WriterErrorFn
              urlPath defaultLogFormatter).
Local Abbreviation NewErrorLogger :=
  (Logger.NewErrorLogger Time KeyMap ILoggerEntry WriterLogFn WriterErrorFn
                         urlPath defaultLogFormatter).
Local Abbreviation bodyLength :=
  (Logger.bodyLength Time KeyMap ILoggerEntry WriterLogFn WriterErrorFn).
Local Abbreviation rawDataLength :=
  (Logger.rawDataLength Time KeyMap ILoggerEntry WriterLogFn WriterErrorFn).

Lemma applyOptions_app (s1 s2 : list Setting) (d c1 : config) :
  applyOptions (options s1) d = Returns c1 ->
  applyOptions (options (s1 ++ s2)) d = applyOptions (options s2) c1.
Proof.
  revert d. induction s1 as [|s s1 IH]; intros d; simpl.
  - now intros [= ->].
  - destruct (LoggerSettings.toOption _ _ _ _ _ _ _ s d) as [d'|];
      [apply IH | discriminate].
Qed.

Lemma toOption_ensureFormatter (x : Setting) (c : config) :
  LoggerSettings.toOption _ _ _ _ _ _ WithField x (ensureFormatter c)
  = LoggerSettings.toOption _ _ _ _ _ _ WithField x c
  \/ exists c',
      LoggerSettings.toOption _ _ _ _ _ _ WithField x c = Returns c'
      /\ LoggerSettings.toOption _ _ _ _ _ _ WithField x (ensureFormatter c)
         = Returns (ensureFormatter c').
Proof.
  destruct c as [[f|] l es ee em fn wl we bl rl];
    destruct x as [[lg|]| | | | |f'| | | |];
    solve [left; reflexivity | right; eexists; split; reflexivity].
Qed.

(** Filling a missing formatter before the options are applied changes
    nothing once it is filled after them. *)
Lemma ensureFormatter_absorbed (s : list Setting) (c : config) :
  match applyOptions (options s) (ensureFormatter c) with
  | Returns c' => Returns (ensureFormatter c')
  | Panics reason => Panics reason
  end
  = match applyOptions (options s) c with
    | Returns c' => Returns (ensureFormatter c')
    | Panics reason => Panics reason
    end.
Proof.
  revert c. induction s as [|x s IH]; intros c.
  - simpl. destruct c as [[f|] l es ee em fn wl we bl rl]; reflexivity.
  - cbn [map Logger.applyOptions].
    destruct (toOption_ensureFormatter x c) as [E|(c' & E1 & E2)].
    + now rewrite E.
    + rewrite E1, E2. apply IH.
Qed.

(** Two rounds of options on the package variable are one round of all
    the options. *)
Lemma finish_app (s1 s2 : list Setting) (d c1 : config) :
  match applyOptions (options s1) d with
  | Returns c => Returns (ensureFormatter c)
  | Panics reason => Panics reason
  end = Returns c1 ->
  match applyOptions (options s2) c1 with
  | Returns c => Returns (ensureFormatter c)
  | Panics reason => Panics reason
  end
  = match applyOptions (options (s1 ++ s2)) d with
    | Returns c => Returns (ensureFormatter c)
    | Panics reason => Panics reason
    end.
Proof.
  destruct (applyOptions (options s1) d) as [c0|] eqn:E; [|discriminate].
  intros [= <-]. rewrite (applyOptions_app s1 s2 d c0 E).
  apply ensureFormatter_absorbed.
Qed.

Lemma lengths_kept (s : list Setting) (d c : config) :
  forallb (fun x => negb (LoggerSettings.sets_length _ _ _ _ _ x)) s = true ->
  applyOptions (options s) d = Returns c ->
  bodyLength c = bodyLength d /\ rawDataLength c = rawDataLength d.
Proof.
  revert d. induction s as [|x s IH]; intros d Hno; simpl.
  - now intros [= ->].
  - simpl in Hno. apply andb_prop in Hno as [Hx Hno].
    destruct d as [f l es ee em fn wl we bl rl].
    destruct x as [[lg|]| | | | | | | | |]; simpl in *;
      try discriminate;
      intros H; apply (IH _ Hno) in H; exact H.
Qed.

Lemma ensureFormatter_lengths (c : config) :
  bodyLength (ensureFormatter c) = bodyLength c
  /\ rawDataLength (ensureFormatter c) = rawDataLength c.
Proof. destruct c as [[f|] l es ee em fn wl we bl rl]; now split. Qed.

Lemma applyOptions_nil_logger (s : list Setting) (d : config) :
  existsb (LoggerSettings.nil_logger _ _ _ _ _) s = true ->
  applyOptions (options s) d
  = Panics "invalid memory address or nil pointer dereference".
Proof.
  revert d. induction s as [|x s IH]; intros d; simpl; [discriminate|].
  destruct x as [[lg|]| | | | | | | | |]; simpl;
    try reflexivity; intros H; now apply IH.
Qed.


(** Property X16.  The limits on the logged bodies default to
    [math.MaxInt] only when [New] creates the configuration.  When
    [NewErrorLogger] ran first and no option sets a limit, a later [New]
    leaves both limits at 0, where the same options given to [New] alone
    leave them at [math.MaxInt]. *)
Theorem limits_depend_on_first_constructor
        (s1 s2 : list Setting) (c1 c2 : config) :
  forallb (fun x => negb (LoggerSettings.sets_length _ _ _ _ _ x))
          (s1 ++ s2) = true ->
  NewErrorLogger None (options s1) = Returns c1 ->
  New (Some c1) (options s2) = Returns c2 ->
  bodyLength c2 = 0 /\ rawDataLength c2 = 0
  /\ forall c,
      New None (options (s1 ++ s2)) = Returns c ->
      bodyLength c = Logger.MaxInt /\ rawDataLength c = Logger.MaxInt.
Proof.
  intros Hno H1 H2.
  assert (Hall : forall d c,
             match applyOptions (options (s1 ++ s2)) d with
             | Returns c => Returns (ensureFormatter c)
             | Panics reason => Panics reason
             end = Returns c ->
             bodyLength c = bodyLength d
             /\ rawDataLength c = rawDataLength d).
  { intros d c.
    destruct (applyOptions (options (s1 ++ s2)) d) as [c0|] eqn:E;
      [|discriminate].
    intros [= <-]. destruct (lengths_kept _ _ _ Hno E) as [Hb Hr].
    destruct (ensureFormatter_lengths c0) as [Hb' Hr'].
    split; congruence. }
  unfold Logger.New, Logger.NewErrorLogger in *.
  rewrite (finish_app s1 s2 _ c1 H1) in H2.
  destruct (Hall _ _ H2) as [Hb Hr].
  split; [exact Hb|]. split; [exact Hr|].
  intros c Hc. exact (Hall _ _ Hc).
Qed.

(** Property X17.  [WithLogger] applied to a nil logger makes the
    constructor panic: with such an option anywhere in the list, [New]
    and [NewErrorLogger] panic, whatever the configuration held. *)
Theorem nil_logger_panics (s : list Setting) (cfg : option config) :
  existsb (LoggerSettings.nil_logger _ _ _ _ _) s = true ->
  New cfg (options s)
  = Panics "invalid memory address or nil pointer dereference"
  /\ NewErrorLogger cfg (options s)
     = Panics "invalid memory address or nil pointer dereference".
Proof.
  intros H. unfold Logger.New, Logger.NewErrorLogger.
  now rewrite !(applyOptions_nil_logger s _ H).
Qed.

End LoggerFacts.

Lemma slice_to_inside (s : string) (n : Z) :
  0 <= n -> n < Z.of_nat (String.length s) ->
  Logger.slice_to s n = Returns (String.substring 0 (Z.to_nat n) s).
Proof.
  intros H0 Hn. unfold Logger.slice_to.
  replace (n <? 0) with false by (symmetry; apply Z.ltb_ge; lia).
  replace (Z.of_nat (String.length s) <? n) with false
    by (symmetry; apply Z.ltb_ge; lia).
  reflexivity.
Qed.

Lemma slice_to_negative (s : string) (n : Z) :
  n < 0 -> Logger.slice_to s n = Panics "slice bounds out of range".
Proof.
  intros Hn. unfold Logger.slice_to.
  replace (n <? 0) with true by (symmetry; apply Z.ltb_lt; lia).
  reflexivity.
Qed.

(** Property X18.  With limits that are not negative, the record holds
    the request body whole when it is within [bodyLength] and nothing of
    it otherwise: the notice written for an oversized request body is
    overwritten at once, and [ResponseData] is the response body, or its
    first [rawDataLength] bytes behind a notice, whatever the request
    was. *)
Theorem recordBodies_within_limits
        {Time KeyMap ILoggerEntry WriterLogFn WriterErrorFn : Type}
        (cfg : Logger.config Time KeyMap ILoggerEntry WriterLogFn
                             WriterErrorFn)
        (rawData body : string)
        (param : Logger.LogFormatterParams Time KeyMap) :
  0 <= Logger.bodyLength _ _ _ _ _ cfg ->
  0 <= Logger.rawDataLength _ _ _ _ _ cfg ->
  Logger.recordBodies _ _ _ _ _ cfg rawData body param
  = Returns
      (Logger.setResponseData _ _
         (LoggerSettings.responseText
            (Logger.rawDataLength _ _ _ _ _ cfg) body)
         (if Z.of_nat (String.length rawData)
             <=? Logger.bodyLength _ _ _ _ _ cfg
          then Logger.setRequestData _ _ rawData param
          else param)).
Proof.
  intros Hb Hr. unfold Logger.recordBodies, LoggerSettings.responseText.
  destruct (Z.leb_spec (Z.of_nat (String.length rawData))
                       (Logger.bodyLength _ _ _ _ _ cfg)) as [H1|H1];
    [|rewrite (slice_to_inside rawData _ Hb H1)];
    (destruct (Z.leb_spec (Z.of_nat (String.length body))
                          (Logger.rawDataLength _ _ _ _ _ cfg)) as [H2|H2];
     [|rewrite (slice_to_inside body _ Hr H2)]);
    reflexivity.
Qed.

(** Property X19.  [recordBodies] panics exactly when one of the two
    limits is negative, and then on every request and response. *)
Theorem recordBodies_panics_iff_negative
        {Time KeyMap ILoggerEntry WriterLogFn WriterErrorFn : Type}
        (cfg : Logger.config Time KeyMap ILoggerEntry WriterLogFn
                             WriterErrorFn)
        (rawData body : string)
        (param : Logger.LogFormatterParams Time KeyMap) :
  Logger.recordBodies _ _ _ _ _ cfg rawData body param
  = Panics "slice bounds out of range"
  <-> Logger.bodyLength _ _ _ _ _ cfg < 0
      \/ Logger.rawDataLength _ _ _ _ _ cfg < 0.
Proof.
  split.
  - intros Hp.
    destruct (Z.lt_ge_cases (Logger.bodyLength _ _ _ _ _ cfg) 0) as [|Hb];
      [now left|].
    destruct (Z.lt_ge_cases (Logger.rawDataLength _ _ _ _ _ cfg) 0)
      as [|Hr]; [now right|].
    unfold Logger.recordBodies in Hp.
    destruct (Z.leb_spec (Z.of_nat (String.length rawData))
                         (Logger.bodyLength _ _ _ _ _ cfg)) as [H1|H1];
      [|rewrite (slice_to_inside rawData _ Hb H1) in Hp];
      (destruct (Z.leb_spec (Z.of_nat (String.length body))
                            (Logger.rawDataLength _ _ _ _ _ cfg))
         as [H2|H2];
       [|rewrite (slice_to_inside body _ Hr H2) in Hp]);
      discriminate Hp.
  - intros Hneg. unfold Logger.recordBodies.
    destruct (Z.lt_ge_cases (Logger.bodyLength _ _ _ _ _ cfg) 0) as [Hb|Hb].
    + replace (Z.of_nat (String.length rawData)
               <=? Logger.bodyLength _ _ _ _ _ cfg) with false
        by (symmetry; apply Z.leb_gt; lia).
      now rewrite (slice_to_negative rawData _ Hb).
    + destruct Hneg as [Hneg|Hr]; [lia|].
      assert (Hfirst :
                exists p,
                  (if Z.of_nat (String.length rawData)
                      <=? Logger.bodyLength _ _ _ _ _ cfg
                   then Returns (Logger.setRequestData _ _ rawData param)
                   else
                     match Logger.slice_to rawData
                             (Logger.bodyLength _ _ _ _ _ cfg) with
                     | Returns head =>
                         Returns
                           (Logger.setResponseData _ _
                              ("request data is too large, limit size: "
                               +:+ Logger.itoa
                                     (Logger.bodyLength _ _ _ _ _ cfg)
                               +:+ " " +:+ Logger.LF +:+ head) param)
                     | Panics reason => Panics reason
                     end) = Returns p).
      { destruct (Z.leb_spec (Z.of_nat (String.length rawData))
                             (Logger.bodyLength _ _ _ _ _ cfg)) as [H1|H1];
          [|rewrite (slice_to_inside rawData _ Hb H1)]; eauto. }
      destruct Hfirst as [p ->].
      replace (Z.of_nat (String.length body)
               <=? Logger.rawDataLength _ _ _ _ _ cfg) with false
        by (symmetry; apply Z.leb_gt; lia).
      now rewrite (slice_to_negative body _ Hr).
Qed.

(** Property X20.  The first statement of [defaultLogFormatter] changes
    the latency only: a latency of a minute or less is kept, a longer
    one is cut down to whole seconds, losing less than a second and
    staying at a minute or more; doing it twice is doing it once. *)
Theorem roundLatency_whole_seconds
        {Time KeyMap : Type}
        (param : Logger.LogFormatterParams Time KeyMap) :
  let rounded := Logger.roundLatency _ _ param in
  let latency := Logger.Latency _ _ param in
  rounded = Logger.setLatency _ _ (Logger.Latency _ _ rounded) param
  /\ (latency <= Logger.Minute -> rounded = param)
  /\ (Logger.Minute < latency ->
      Z.rem (Logger.Latency _ _ rounded) Logger.Second = 0
      /\ latency - Logger.Second < Logger.Latency _ _ rounded <= latency
      /\ Logger.Minute <= Logger.Latency _ _ rounded)
  /\ Logger.roundLatency _ _ rounded = rounded.
Proof.
  cbv zeta. unfold Logger.roundLatency.
  destruct param as [ts sc l ip m pa em it bs k rd ua rf pr ri ti si rs].
  cbn [Logger.Latency]. unfold Logger.Minute, Logger.Second.
  destruct (Z.ltb_spec (60 * 1000000000) l) as [Hlong|Hshort].
  - cbn [Logger.Latency Logger.setLatency].
    assert (Hpos : 0 <= l) by lia.
    rewrite Z.rem_mod_nonneg by lia.
    pose proof (Z.mod_pos_bound l 1000000000 ltac:(lia)) as Hm.
    pose proof (Z.div_mod l 1000000000 ltac:(lia)) as Hd.
    assert (Hq : 60 <= l / 1000000000)
      by (apply Z.div_le_lower_bound; lia).
    assert (Hmul : l - l mod 1000000000 = 1000000000 * (l / 1000000000))
      by lia.
    assert (Hz : Z.rem (l - l mod 1000000000) 1000000000 = 0).
    { rewrite Hmul, Z.rem_mod_nonneg by lia.
      rewrite Z.mul_comm. apply Z.mod_mul. lia. }
    split; [reflexivity|]. split; [lia|]. split.
    + intros _. split; [exact Hz | lia].
    + destruct (Z.ltb_spec (60 * 1000000000) (l - l mod 1000000000));
        [|reflexivity].
      cbn [Logger.Latency Logger.setLatency].
      now rewrite Hz, Z.sub_0_r.
  - split; [reflexivity|]. split; [reflexivity|]. split; [lia|].
    cbn [Logger.Latency].
    destruct (Z.ltb_spec (60 * 1000000000) l); [lia | reflexivity].
Qed.

(* ===================================================================== *)
(** * The further properties on sample data                              *)
(* ===================================================================== *)

Import LoggerSamples.

Lemma applyCors_returns_witness :
  two_part (wildcardOrigins policy)
  /\ valid_status (optionsResponseStatusCode policy)
  /\ exists w', applyCors policy (request "OPTIONS" "https://example.com")
               = Ok tt w'.
Proof.
  assert (Hvalid : valid_status (optionsResponseStatusCode policy))
    by (unfold valid_status; simpl; lia).
  split; [reflexivity|]. split; [exact Hvalid|].
  apply (applyCors_returns policy
                           (request "OPTIONS" "https://example.com")).
  - reflexivity.
  - exact Hvalid.
Defined.

Lemma applyCors_frame_witness :
  exists w',
    applyCors policy (request "GET" "https://example.com") = Ok tt w'
    /\ Req (ctx w') = Req (ctx (request "GET" "https://example.com"))
    /\ WriterHeader (ctx w') !! "Content-Type" = Some ["text/plain"].
Proof.
  destruct (applyCors policy (request "GET" "https://example.com"))
    as [[] w'| |] eqn:E.
  - exists w'. split; [reflexivity|].
    destruct (applyCors_frame
                policy (request "GET" "https://example.com") w' E)
      as (Hreq & _ & Hkeep).
    split; [exact Hreq|].
    rewrite Hkeep;
      [vm_compute; reflexivity | discriminate | vm_compute; reflexivity].
  - vm_compute in E. discriminate E.
  - vm_compute in E. discriminate E.
Defined.

Lemma applyCors_normal_continues_witness :
  exists w2,
    applyCors policy (request "GET" "https://example.com") = Ok tt w2
    /\ index (ctx w2) = 0
    /\ WriterHeader (ctx w2) !! "Access-Control-Expose-Headers"
       = Some ["X-Trace"].
Proof.
  assert (Hc : classify (ctx (request "GET" "https://example.com"))
               = CrossOrigin) by (vm_compute; reflexivity).
  assert (Ho : "https://example.com"
               = requestOrigin (ctx (request "GET" "https://example.com")))
    by (vm_compute; reflexivity).
  assert (Hm : Method (Req (ctx (request "GET" "https://example.com")))
               <> "OPTIONS") by discriminate.
  assert (Hv : isOriginValid policy "https://example.com"
                 (request "GET" "https://example.com")
               = Ok true (request "GET" "https://example.com"))
    by (vm_compute; reflexivity).
  destruct (applyCors_normal_continues
              policy (request "GET" "https://example.com")
              (request "GET" "https://example.com")
              "https://example.com" Hc Ho Hm Hv)
    as (w2 & Hrun & Hidx & _ & Hset & _).
  exists w2. split; [exact Hrun|]. split; [exact Hidx|].
  apply (Hset "Access-Control-Expose-Headers" ["X-Trace"]).
  vm_compute. reflexivity.
Defined.

Lemma newCors_flag_witness :
  exists g,
    newCors anyValidate sameOrigins noHeaders noHeaders noRules starConfig
    = Returns g
    /\ allowAllOrigins g = true
    /\ allowOrigins g = ["https://example.com"; "*"].
Proof.
  eexists. split; [reflexivity|].
  destruct (newCors_flag anyValidate sameOrigins noHeaders noHeaders noRules
                         starConfig _ eq_refl) as (Hall & Hlist & _).
  split; [exact Hall | exact Hlist].
Defined.


Lemma wildcard_rule_fills_the_star_witness :
  exists middle,
    "https://api.example.com" = "https://" +:+ middle +:+ ".example.com".
Proof.
  apply (proj2 (wildcard_rule_fills_the_star
                  "https://" ".example.com" (plainRequest "GET"))).
  - discriminate.
  - discriminate.
  - vm_compute. reflexivity.
  - vm_compute. repeat constructor.
Defined.

Lemma isIPWhite_same_entries_witness :
  IpWhite.isIPWhite N (N * N) parseIPv4 parseCIDRv4 containsIPv4 trimSpaces
                    "10.1.2.3" ["192.168.0.1"; "10.0.0.0/8"]
  = IpWhite.isIPWhite N (N * N) parseIPv4 parseCIDRv4 containsIPv4
                      trimSpaces "10.1.2.3"
                      ["10.0.0.0/8"; "192.168.0.1"; "10.0.0.0/8"].
Proof.
  apply (isIPWhite_same_entries parseIPv4 parseCIDRv4 containsIPv4
                                trimSpaces).
  intros entry. rewrite !elem_of_cons. tauto.
Defined.

Lemma New_empty_list_rejects_all_witness :
  IpWhite.New N (N * N) parseIPv4 parseCIDRv4 containsIPv4 trimSpaces
              realIP [] (visitor "10.1.2.3")
  = Ok tt (mkWorld (aborted StatusForbidden (ctx (visitor "10.1.2.3")))
                   [EvAbortWithStatus 403 ∅]).
Proof.
  apply (New_empty_list_rejects_all
           parseIPv4 parseCIDRv4 containsIPv4 trimSpaces realIP []
           (visitor "10.1.2.3")).
  reflexivity.
Defined.

Lemma isIPWhite_compares_text_witness :
  IpWhite.isIPWhite N (N * N) parseIPv4 parseCIDRv4 containsIPv4 trimSpaces
                    "10.0.0.1" ["10.0.0.1"] = true
  /\ IpWhite.isIPWhite N (N * N) parseIPv4 parseCIDRv4 containsIPv4
                       trimSpaces "010.0.0.1" ["10.0.0.1"] = false.
Proof.
  apply (isIPWhite_compares_text
           parseIPv4 parseCIDRv4 containsIPv4 trimSpaces
           "10.0.0.1" "010.0.0.1" 167772161%N).
  - vm_compute. reflexivity.
  - vm_compute. reflexivity.
  - discriminate.
  - vm_compute. reflexivity.
  - vm_compute. reflexivity.
Defined.

Lemma checkLabel_sound_list_witness :
  Logger.checkLabel literalMatch "/healthz" ["/metrics"; "/health"] = false
  <-> exists pattern,
      pattern ∈ ["/metrics"; "/health"]
      /\ literalMatch pattern "/healthz" = (true, None).
Proof.
  apply (checkLabel_sound_list literalMatch "/healthz"
                               ["/metrics"; "/health"]).
  repeat constructor; try discriminate; eexists; vm_compute; reflexivity.
Defined.

Lemma checkLabel_cut_witness :
  Logger.checkLabel literalMatch "/healthz"
                    (["/metrics"] ++ "" :: ["/health"])
  = Logger.checkLabel literalMatch "/healthz" ["/metrics"].
Proof.
  apply (checkLabel_cut literalMatch "/healthz" "" ["/metrics"]
                        ["/health"]).
  left. reflexivity.
Defined.


Lemma limits_depend_on_first_constructor_witness :
  exists c1 c2,
    sNewErrorLogger None firstSettings = Returns c1
    /\ sNew (Some c1) laterSettings = Returns c2
    /\ Logger.bodyLength _ _ _ _ _ c2 = 0
    /\ Logger.rawDataLength _ _ _ _ _ c2 = 0.
Proof.
  do 2 eexists. split; [reflexivity|]. split; [reflexivity|].
  destruct (limits_depend_on_first_constructor
              withField samplePath pathFormatter
              firstSettings laterSettings _ _ eq_refl eq_refl eq_refl)
    as (Hb & Hr & _).
  split; [exact Hb | exact Hr].
Defined.

Lemma nil_logger_panics_witness :
  sNew None nilLoggerSettings
  = Panics "invalid memory address or nil pointer dereference".
Proof.
  apply (nil_logger_panics withField samplePath pathFormatter
                           nilLoggerSettings None).
  reflexivity.
Defined.

Lemma recordBodies_within_limits_witness :
  exists p,
    Logger.recordBodies _ _ _ _ _ (limits 4 5) "0123456789" "abcdefghij"
                        blank = Returns p
    /\ Logger.RequestData _ _ p = ""
    /\ Logger.ResponseData _ _ p
       = "response data is too large, limit size: 5 " +:+ Logger.LF
         +:+ "abcde".
Proof.
  eexists. split.
  - apply (recordBodies_within_limits (limits 4 5) "0123456789"
                                      "abcdefghij" blank).
    + vm_compute. discriminate.
    + vm_compute. discriminate.
  - split; vm_compute; reflexivity.
Defined.

Example oversized_request_leaves_no_trace :
  Logger.recordBodies _ _ _ _ _ (limits 4 100) "0123456789" "ok" blank
  = Returns (Logger.setResponseData _ _ "ok" blank).
Proof. vm_compute. reflexivity. Qed.

Example negative_limit_panics :
  Logger.recordBodies _ _ _ _ _ (limits (-1) 100) "" "ok" blank
  = Panics "slice bounds out of range".
Proof. vm_compute. reflexivity. Qed.

Example long_latency_in_whole_seconds :
  Logger.Latency _ _
    (Logger.roundLatency _ _ (Logger.setLatency _ _ 61500000000 blank))
  = 61000000000.
Proof. vm_compute. reflexivity. Qed.
